(** * buildchart.js: the view-synchronised sensor chart

    A shallow embedding of [static/buildchart.js].  The file in the
    repository is a sequence of snapshots of the same script; the embedding
    follows the last one (the one that imports [co2_map] and plots CO2), in
    module [BuildChart], and the first one for the functions that only exist
    there (the Buck formula and [absolute_humidity], in module [Humidity],
    and its two-dataset [update_chart], in module [Snapshot1]); the
    reconciler of the fourth snapshot, which recreates its datasets, is in
    module [Snapshot4].

    Modelling conventions.
    - The script runs on one event loop.  One handler invocation is one
      computation in a state-and-exception monad; what the network and the
      clock do during the invocation is an argument ([exchange]).
    - The page is a record with one field per element the script looks up by
      id, plus the list of all other elements: the page is taken to define
      all ten ids, so that no top-level constant is [null].  Every element
      carries its class list, so the class-wide toggles of
      [querySelectorAll] reach the named elements too.
    - A response body decodes to an array of reading objects or fails to
      decode; a reading may lack any of its fields.
    - The chart library is opaque: [chart.update] and [chart.resetZoom] are
      recorded as calls in a trace, the dataset list is data the script
      owns, and the axis bounds are data the script only reads.
    - Finite JavaScript numbers are idealised: rationals in the pipeline
      (where they are compared and rounded), real numbers in the humidity
      formula (which needs the exponential). *)

From Stdlib Require Import List String ZArith QArith Qround Reals Lia Lra Bool DecimalString.
From Stdlib Require Import Ascii DecimalZ.
From stdpp Require Import base list.
Import ListNotations.

(** ** JavaScript values, errors and completions *)

Module Js.

(** What [JSON.parse] can produce. *)
#[local] Unset Elimination Schemes.
Inductive json : Type :=
  | JNull
  | JBool (b : bool)
  | JNum (q : Q)
  | JStr (s : string)
  | JArr (items : list json)
  | JObj (fields : list (string * json)).
#[local] Set Elimination Schemes.

(** A property read yields a JSON value or [undefined]. *)
Definition value : Type := option json.
Definition undefined : value := None.

(** ToBoolean: [undefined], [null], [false], [0] and the empty string are
    falsy, everything else (arrays and objects included) is truthy. *)
Definition truthy (v : value) : bool :=
  match v with
  | None => false
  | Some JNull => false
  | Some (JBool b) => b
  | Some (JNum q) => negb (Qeq_bool q 0)
  | Some (JStr s) => negb (String.eqb s "")
  | Some (JArr _) => true
  | Some (JObj _) => true
  end.

(** A thrown [Error] object. *)
Record error : Type := Error { name : string; message : string }.

(** [Error.prototype.toString], which is what assigning an error to
    [textContent] displays. *)
Definition String_error (e : error) : string :=
  if String.eqb (name e) "" then message e
  else if String.eqb (message e) "" then name e
  else (name e ++ ": " ++ message e)%string.

(** Reading property [prop] of [undefined]. *)
Definition TypeError_undefined (prop : string) : error :=
  Error "TypeError"
        ("Cannot read properties of undefined (reading '" ++ prop ++ "')").

(** Assigning to property [prop] of [undefined]. *)
Definition TypeError_undefined_set (prop : string) : error :=
  Error "TypeError"
        ("Cannot set properties of undefined (setting '" ++ prop ++ "')").

(** How a piece of code finishes: normally with a value, or by throwing. *)
Inductive completion (A : Type) : Type :=
  | Normal (a : A)
  | Throw (e : error).
Arguments Normal {A} a.
Arguments Throw {A} e.

(** [Math.round]: the nearest integer, halves towards plus infinity. *)
Definition Math_round (x : Q) : Z := Qfloor (x + (1 # 2)).

(** Number-to-string conversion of an integral number: its decimal digits
    (timestamps, durations and lengths stay far below the magnitude at which
    JavaScript switches to exponent notation). *)
Definition Number_toString (n : Z) : string :=
  NilZero.string_of_int (Z.to_int n).

(** [a < b] on finite numbers. *)
Definition Qlt_bool (a b : Q) : bool := negb (Qle_bool b a).

End Js.

(** ** The page *)

Module Dom.

Record element : Type := Element {
  classList : list string;
  hidden : bool;
  textContent : string;
  value : string;
  backgroundColor : string
}.

Definition has_class (cls : string) (e : element) : bool :=
  existsb (String.eqb cls) (classList e).

Definition set_hidden (b : bool) (e : element) : element :=
  Element (classList e) b (textContent e) (value e) (backgroundColor e).

Definition set_textContent (t : string) (e : element) : element :=
  Element (classList e) (hidden e) t (value e) (backgroundColor e).

Definition set_backgroundColor (c : string) (e : element) : element :=
  Element (classList e) (hidden e) (textContent e) (value e) c.

(** The elements behind the script's top-level [querySelector] constants,
    and every other element of the page. *)
Record document : Type := Document {
  ctx : element;
  load_time : element;
  points_loaded : element;
  timespan : element;
  error_message : element;
  reset : element;
  start_date : element;
  end_date : element;
  password : element;
  co2_box : element;
  others : list element
}.

Definition elements (d : document) : list element :=
  ctx d :: load_time d :: points_loaded d :: timespan d :: error_message d
  :: reset d :: start_date d :: end_date d :: password d :: co2_box d
  :: others d.

Definition map_document (f : element -> element) (d : document) : document :=
  Document (f (ctx d)) (f (load_time d)) (f (points_loaded d)) (f (timespan d))
           (f (error_message d)) (f (reset d)) (f (start_date d))
           (f (end_date d)) (f (password d)) (f (co2_box d))
           (map f (others d)).

(** [e.hidden = b] for an element that [querySelectorAll('.' + cls)]
    selects; other elements are not visited. *)
Definition set_hidden_if (cls : string) (b : bool) (e : element) : element :=
  if has_class cls e then set_hidden b e else e.

(** [document.querySelectorAll('.' + cls).forEach((e) => { e.hidden = b })] *)
Definition forEach_set_hidden (cls : string) (b : bool) (d : document)
  : document :=
  map_document (set_hidden_if cls b) d.

Definition on_load_time (f : element -> element) (d : document) : document :=
  Document (ctx d) (f (load_time d)) (points_loaded d) (timespan d)
           (error_message d) (reset d) (start_date d) (end_date d)
           (password d) (co2_box d) (others d).

Definition on_points_loaded (f : element -> element) (d : document)
  : document :=
  Document (ctx d) (load_time d) (f (points_loaded d)) (timespan d)
           (error_message d) (reset d) (start_date d) (end_date d)
           (password d) (co2_box d) (others d).

Definition on_error_message (f : element -> element) (d : document)
  : document :=
  Document (ctx d) (load_time d) (points_loaded d) (timespan d)
           (f (error_message d)) (reset d) (start_date d) (end_date d)
           (password d) (co2_box d) (others d).

Definition on_start_date (f : element -> element) (d : document) : document :=
  Document (ctx d) (load_time d) (points_loaded d) (timespan d)
           (error_message d) (reset d) (f (start_date d)) (end_date d)
           (password d) (co2_box d) (others d).

Definition on_end_date (f : element -> element) (d : document) : document :=
  Document (ctx d) (load_time d) (points_loaded d) (timespan d)
           (error_message d) (reset d) (start_date d) (f (end_date d))
           (password d) (co2_box d) (others d).

Definition on_co2_box (f : element -> element) (d : document) : document :=
  Document (ctx d) (load_time d) (points_loaded d) (timespan d)
           (error_message d) (reset d) (start_date d) (end_date d)
           (password d) (f (co2_box d)) (others d).

End Dom.

(** ** The chart object and the state of one page session *)

Module Session.
Import Js.

(** A band of the CO2 severity table, [co2_level_mapping.js]. *)
Record band : Type := Band {
  start : Q;
  end_ : Q;
  description : string;
  color : string
}.

(** A point as the chart plots it. *)
Record xy : Type := XY { x : value; y : value }.

Record dataset : Type := Dataset {
  label : string;
  data : list xy;
  yAxisID : string
}.

Definition set_data (points : list xy) (d : dataset) : dataset :=
  Dataset (label d) points (yAxisID d).

(** [chart.data.datasets] and [chart.scales.xAxis]. *)
Record chart_t : Type := Chart {
  datasets : list dataset;
  xAxis_min : Q;
  xAxis_max : Q
}.

Definition on_datasets (f : list dataset -> list dataset) (c : chart_t)
  : chart_t :=
  Chart (f (datasets c)) (xAxis_min c) (xAxis_max c).

(** What [console.log] is given as its second argument. *)
Inductive logged : Type :=
  | LNumber (q : Q)
  | LBand (b : option band).

(** Calls that leave the script, in the order they are made. *)
Inductive event : Type :=
  | Fetch (url authorization : string)
  | ForEachHidden (cls : string) (hidden : bool)
  | ChartUpdate (mode : string)
  | ChartResetZoom
  | ConsoleLog (text : string) (arg : logged).

Record state : Type := State {
  page : Dom.document;
  chart : chart_t;
  trace : list event
}.

Definition on_page (f : Dom.document -> Dom.document) (s : state) : state :=
  State (f (page s)) (chart s) (trace s).

Definition on_chart (f : chart_t -> chart_t) (s : state) : state :=
  State (page s) (f (chart s)) (trace s).

Definition emit (e : event) (s : state) : state :=
  State (page s) (chart s) (trace s ++ [e]).

(** *** The monad of handler code *)

Definition M (A : Type) : Type := state -> completion A * state.

Definition ret {A} (a : A) : M A := fun s => (Normal a, s).

Definition throw {A} (e : error) : M A := fun s => (Throw e, s).

Definition bind {A B} (m : M A) (k : A -> M B) : M B :=
  fun s =>
    match m s with
    | (Normal a, s1) => k a s1
    | (Throw e, s1) => (Throw e, s1)
    end.

Definition gets {A} (f : state -> A) : M A := fun s => (Normal (f s), s).

Definition modify (f : state -> state) : M unit := fun s => (Normal tt, f s).

Definition lift {A} (c : completion A) : M A := fun s => (c, s).

(** [try { body } catch (error) { handler } finally { cleanup }], where
    every path through [body] and [handler] returns or throws: the
    completion is the one of [body], or of [handler] when [body] throws, and
    [cleanup] runs after either; a throw from [cleanup] replaces it. *)
Definition try_catch_finally {A} (body : M A) (handler : error -> M A)
    (cleanup : M unit) : M A :=
  fun s =>
    let (r, s1) :=
      match body s with
      | (Normal a, s1) => (Normal a, s1)
      | (Throw e, s1) => handler e s1
      end in
    match cleanup s1 with
    | (Normal _, s2) => (r, s2)
    | (Throw e, s2) => (Throw e, s2)
    end.

Declare Scope js_scope.
Delimit Scope js_scope with js.
Notation "'let*' x ':=' m 'in' k" := (bind m (fun x => k))
  (at level 10, x name, m at level 100, k at level 200) : js_scope.
Notation "m ';;' k" := (bind m (fun _ => k))
  (at level 100, k at level 200, right associativity) : js_scope.

(** Reading a property of a value that may be [undefined]. *)
Definition read {A B} (o : option A) (prop : string) (get : A -> B) : M B :=
  match o with
  | Some a => ret (get a)
  | None => throw (TypeError_undefined prop)
  end.

(** *** What the environment does during one request *)

Inductive reply : Type :=
  | Response (status : Z) (text : string)
  | Rejected (e : error).

(** [started] and [decoded] are the two readings of [Date.now()]. *)
Record exchange : Type := Exchange {
  started : Z;
  answer : reply;
  decoded : Z
}.

(** *** Collaborators: the page, the network, the chart, the console *)

Definition querySelectorAll_forEach_hidden (cls : string) (b : bool)
  : M unit :=
  modify (fun s => emit (ForEachHidden cls b)
                        (on_page (Dom.forEach_set_hidden cls b) s)).

(** [await fetch(url, { headers: { authorization } })]: the request leaves,
    and the call resumes with the response (status and body text) or
    throws the rejection. *)
Definition fetch (w : exchange) (url authorization : string)
  : M (Z * string) :=
  (modify (emit (Fetch url authorization)) ;;
   match answer w with
   | Response status text => ret (status, text)
   | Rejected e => throw e
   end)%js.

Definition chart_update (mode : string) : M unit :=
  modify (emit (ChartUpdate mode)).

Definition chart_resetZoom : M unit :=
  modify (emit ChartResetZoom).

Definition console_log (text : string) (arg : logged) : M unit :=
  modify (emit (ConsoleLog text arg)).

(** [chart.data.datasets.push(d)] *)
Definition datasets_push (d : dataset) : M unit :=
  modify (on_chart (on_datasets (fun ds => ds ++ [d]))).

(** [chart.data.datasets[i].data = points]; assigning to a property of an
    element that is not there throws. *)
Definition datasets_set_data (i : nat) (points : list xy) : M unit :=
  (let* ds := gets (fun s => datasets (chart s)) in
   match ds !! i with
   | Some _ => modify (on_chart (on_datasets (alter (set_data points) i)))
   | None => throw (TypeError_undefined_set "data")
   end)%js.

End Session.

(** ** The script, last snapshot *)

Module BuildChart.
Import Js Session.
#[local] Open Scope js_scope.
#[local] Open Scope string_scope.

(** A reading as the data service sends it; a field the object does not
    carry reads as [undefined]. *)
Record reading : Type := Reading {
  time : value;
  temperature : value;
  humidity : value;
  co2 : value
}.

Record point : Type := Point { p_time : value; p_value : value }.

(** What [fetch_range_data] and [fetch_range_data_between] resolve to. *)
Record series : Type := Series {
  temp : list point;
  humid : list point;
  co2_points : list point
}.

Section Script.

(** The imported severity table. *)
Variable co2_map : list band.

(** Decoding a response body, [data.json()]: an array of readings, or a
    thrown error. *)
Variable JSON_parse : string -> completion (list reading).

(** [new Date(t).toLocaleString()], which depends on the locale. *)
Variable Date_toLocaleString : value -> string.

(** *** The script's functions *)

Definition report_error (message : string) : M unit :=
  querySelectorAll_forEach_hidden "hide-until-loaded" true ;;
  modify (on_page (Dom.on_error_message (Dom.set_textContent message))) ;;
  modify (on_page (Dom.on_error_message (Dom.set_hidden false))).

Definition fetch_data (w : exchange) (url : string) : M (list reading) :=
  let start := started w in
  try_catch_finally
    (let* authorization :=
       gets (fun s => "Bearer " ++ Dom.value (Dom.password (page s))) in
     let* data := fetch w url authorization in
     if negb (fst data =? 200)%Z then
       report_error (snd data) ;;
       ret []
     else
       let* body := lift (JSON_parse (snd data)) in
       let end' := decoded w in
       modify (on_page (Dom.on_load_time
                 (Dom.set_textContent (Number_toString (end' - start))))) ;;
       modify (on_page (Dom.on_points_loaded
                 (Dom.set_textContent
                    (Number_toString (Z.of_nat (length body)))))) ;;
       modify (on_page (Dom.on_error_message (Dom.set_hidden true))) ;;
       querySelectorAll_forEach_hidden "hide-until-loaded" false ;;
       (if (0 <? length body)%nat then
          let* first := read (body !! 0%nat) "time" time in
          modify (on_page (Dom.on_start_date
                    (Dom.set_textContent (Date_toLocaleString first)))) ;;
          let* last := read (body !! (length body - 1)%nat) "time" time in
          modify (on_page (Dom.on_end_date
                    (Dom.set_textContent (Date_toLocaleString last))))
        else
          modify (on_page (Dom.on_start_date (Dom.set_hidden true))) ;;
          modify (on_page (Dom.on_end_date (Dom.set_hidden true)))) ;;
       ret body)
    (fun error =>
       report_error (String_error error) ;;
       ret [])
    (querySelectorAll_forEach_hidden "visible-until-loaded" true).

Definition fetch_range_data (w : exchange) (range : string) : M series :=
  let* data := fetch_data w ("/data/range/" ++ range) in
  let temp := map (fun d => Point (time d) (temperature d)) data in
  let humid := map (fun d => Point (time d) (humidity d)) data in
  let co2 := map (fun d => Point (time d) (co2 d))
                 (List.filter (fun d => truthy (co2 d)) data) in
  ret (Series temp humid co2).

Definition fetch_range_data_between (w : exchange) (start_ms stop_ms : Z)
  : M series :=
  let* data := fetch_data w ("/data/from/" ++ Number_toString start_ms
                             ++ "/to/" ++ Number_toString stop_ms) in
  let temp := map (fun d => Point (time d) (temperature d)) data in
  let humid := map (fun d => Point (time d) (humidity d)) data in
  let co2 := map (fun d => Point (time d) (co2 d))
                 (List.filter (fun d => truthy (co2 d)) data) in
  ret (Series temp humid co2).

Definition update_chart (data : series) : M unit :=
  let dataset := map (fun d => XY (p_time d) (p_value d)) (temp data) in
  let dataset1 := map (fun d => XY (p_time d) (p_value d)) (humid data) in
  let dataset2 := map (fun d => XY (p_time d) (p_value d)) (co2_points data) in
  let* n := gets (fun s => length (datasets (chart s))) in
  (if negb (n =? 3)%nat then
     datasets_push (Dataset "Temperature (C)" dataset "y") ;;
     datasets_push (Dataset "Humidity (%H)" dataset1 "y1") ;;
     datasets_push (Dataset "Co2 (ppm)" dataset2 "y2")
   else
     datasets_set_data 0 dataset ;;
     datasets_set_data 1 dataset1 ;;
     datasets_set_data 2 dataset2) ;;
  chart_update "none".

(** [fetch_range_data(timespan.value).then(update_chart)
      .then(() => chart.resetZoom())] *)
Definition timespan_onchange (w : exchange) : M unit :=
  let* range := gets (fun s => Dom.value (Dom.timespan (page s))) in
  let* data := fetch_range_data w range in
  update_chart data ;;
  chart_resetZoom.

Definition password_onchange (w : exchange) : M unit :=
  timespan_onchange w.

Definition reset_onclick (w : exchange) : M unit :=
  timespan_onchange w.

Definition on_zoom_complete_check (w : exchange) : M unit :=
  let* min := gets (fun s => Math_round (xAxis_min (chart s))) in
  let* max := gets (fun s => Math_round (xAxis_max (chart s))) in
  let* data := fetch_range_data_between w min max in
  update_chart data.

Definition on_range_change (w : exchange) : M unit :=
  let* min := gets (fun s => Math_round (xAxis_min (chart s))) in
  let* max := gets (fun s => Math_round (xAxis_max (chart s))) in
  let* data := fetch_range_data_between w min max in
  update_chart data.

Definition update_co2_box (co2_level : Q) : M unit :=
  console_log "current_co2 is fetched: " (LNumber co2_level) ;;
  let current_level :=
    List.find (fun elem => Qle_bool (start elem) co2_level
                           && Qlt_bool co2_level (end_ elem)) co2_map in
  console_log "current level: " (LBand current_level) ;;
  let* d := read current_level "description" description in
  modify (on_page (Dom.on_co2_box (Dom.set_textContent d))) ;;
  let* c := read current_level "color" color in
  modify (on_page (Dom.on_co2_box (Dom.set_backgroundColor c))).

End Script.

End BuildChart.

(** ** The first snapshot: derived humidity, two datasets *)

Module Humidity.
#[local] Open Scope R_scope.

Record reading : Type := Reading {
  time : Js.value;
  temperature : R;
  humidity : R
}.

Record point : Type := Point { p_time : Js.value; p_value : R }.

Record converted : Type := Converted {
  temp : list point;
  humid : list point;
  abs_humid : list point
}.

(** Using the Buck equation:
    P = 0.61121 * exp((18.678 - (T / 234.5)) * (T / (257.14 + T))) *)
Definition calculate_saturation_pressure (temperature_c : R) : R :=
  let t_1 := temperature_c / 234.5 in
  let t_2 := temperature_c / (257.14 + temperature_c) in
  let pow1 := (18.678 - t_1) * t_2 in
  let exp := exp pow1 in
  0.61121 * exp.

Definition absolute_humidity (data : reading) : point :=
  let temp := temperature data in
  let hum := humidity data in
  let saturation_pressure := calculate_saturation_pressure temp in
  let vapor_pressure := saturation_pressure * (hum / 100) in
  let moles := vapor_pressure / (461.5 * temp) in
  Point (time data) (moles * 18.02 * 1000).

Definition convert (data : list reading) : converted :=
  let temp := map (fun v => Point (time v) (temperature v)) data in
  let humidity := map (fun v => Point (time v) (humidity v)) data in
  let abs_hum := map absolute_humidity data in
  Converted temp humidity abs_hum.

End Humidity.

Module Snapshot1.
Import Js Session.
#[local] Open Scope js_scope.
#[local] Open Scope string_scope.

Record point : Type := Point { p_time : value; p_value : value }.

Record converted : Type := Converted {
  temp : list point;
  humid : list point;
  abs_humid : list point
}.

(** The first snapshot's reconciler: two datasets, inserted when the list
    is empty; [dataset2] is computed and not used. *)
Definition update_chart (data : converted) : M unit :=
  let dataset := map (fun d => XY (p_time d) (p_value d)) (temp data) in
  let dataset1 := map (fun d => XY (p_time d) (p_value d)) (humid data) in
  let dataset2 := map (fun d => XY (p_time d) (p_value d)) (abs_humid data) in
  let* n := gets (fun s => length (datasets (chart s))) in
  (if (n =? 0)%nat then
     datasets_push (Dataset "Temperature (C)" dataset "y") ;;
     datasets_push (Dataset "Humidity (%H)" dataset1 "y1")
   else
     datasets_set_data 0 dataset ;;
     datasets_set_data 1 dataset1) ;;
  chart_update "none".

End Snapshot1.

(** ** The chart options of the last snapshot *)

Module ChartOptions.
#[local] Open Scope string_scope.



End ChartOptions.

(** ** The fourth snapshot: two datasets, recreated on every update *)

Module Snapshot4.
Import Js Session.
#[local] Open Scope js_scope.
#[local] Open Scope string_scope.

Record point : Type := Point { p_time : value; p_value : value }.

(** What this snapshot's [fetch_range_data] resolves to. *)
Record fetched : Type := Fetched {
  temp : list point;
  humid : list point
}.

(** [chart.data.datasets.pop()]; on an empty array it does nothing. *)
Definition datasets_pop : M unit :=
  modify (on_chart (on_datasets (fun ds => removelast ds))).

Definition update_chart (data : fetched) : M unit :=
  datasets_pop ;;
  datasets_pop ;;
  let dataset := map (fun d => XY (p_time d) (p_value d)) (temp data) in
  let dataset1 := map (fun d => XY (p_time d) (p_value d)) (humid data) in
  datasets_push (Dataset "Temperature (C)" dataset "y") ;;
  datasets_push (Dataset "Humidity (%H)" dataset1 "y1") ;;
  chart_update "none".

End Snapshot4.

(** ** A sample page, service and severity table *)

Module Sample.
Import Js Session BuildChart.
#[local] Open Scope string_scope.

Definition plain (classes : list string) : Dom.element :=
  Dom.Element classes false "" "" "".

(** A page whose canvas and summary are result-dependent and which has a
    spinner as its in-flight indicator; the error display starts hidden. *)
Definition page : Dom.document :=
  Dom.Document (plain ["hide-until-loaded"]) (plain []) (plain [])
    (Dom.Element [] false "" "1h" "") (Dom.Element [] true "" "" "")
    (plain []) (plain []) (plain []) (Dom.Element [] false "" "secret" "")
    (plain [])
    [plain ["visible-until-loaded"]; plain ["hide-until-loaded"]].

(** The session before the first fetch: no datasets yet, and a viewport
    with fractional bounds. *)
Definition fresh : state := State page (Chart [] (3 # 2) (7 # 2)) [].

(** Three readings: without a CO2 field, with CO2 = 0, with CO2 = 500. *)
Definition readings : list reading :=
  [Reading (Some (JNum 1000)) (Some (JNum 20)) (Some (JNum 50)) None;
   Reading (Some (JNum 2000)) (Some (JNum 21)) (Some (JNum 51))
           (Some (JNum 0));
   Reading (Some (JNum 3000)) (Some (JNum 22)) (Some (JNum 52))
           (Some (JNum 500))].

(** A decoder that knows one body. *)
Definition JSON_parse (text : string) : completion (list reading) :=
  if String.eqb text "[r1,r2,r3]" then Normal readings
  else Throw (Error "SyntaxError" "Unexpected token").

Definition Date_toLocaleString (t : value) : string :=
  match t with
  | Some (JNum q) => Number_toString (Qfloor q)
  | _ => "Invalid Date"
  end.

Definition answered : exchange :=
  Exchange 10 (Response 200 "[r1,r2,r3]") 25.

Definition unavailable : exchange :=
  Exchange 10 (Response 500 "db unavailable") 25.

Definition offline : exchange :=
  Exchange 10 (Rejected (Error "TypeError" "Failed to fetch")) 25.

(** The session after one successful full reload. *)
Definition loaded : state :=
  snd (timespan_onchange JSON_parse Date_toLocaleString answered fresh).

(** The bands of scenario D. *)
Definition co2_map : list band :=
  [Band 0 600 "Good" "green"; Band 600 1000 "Moderate" "yellow"].

End Sample.

(** ** Further sample sessions *)

Module MoreSamples.
Import Js Session BuildChart.
#[local] Open Scope string_scope.

(** A decoder for a service that has no readings in the range. *)
Definition no_readings (text : string) : completion (list reading) :=
  Normal [].

(** The sample session after a reload that found no readings. *)
Definition emptied : state :=
  snd (fetch_data no_readings Sample.Date_toLocaleString Sample.answered
         "/data/range/1h" Sample.fresh).

(** A chart that holds a single dataset. *)
Definition placeholder : state :=
  State Sample.page (Chart [Dataset "Loading data..." [] ""] 0 1) [].

Definition one_point : list Snapshot1.point :=
  [Snapshot1.Point (Some (JNum 1000)) (Some (JNum 20))].

End MoreSamples.

(** * Properties *)

(** ** Vocabulary of the statements *)

Module Spec.
Import Js Session BuildChart.
#[local] Open Scope string_scope.

(** How an exchange ends: the decoded readings of a 200 response, or a
    failure with its message, which is the body text of a response whose
    status is not 200, or the description of the error that a rejected
    request or an undecodable body throws. *)
Inductive outcome : Type :=
  | Success (readings : list reading)
  | Failure (message : string).

Definition classify
    (JSON_parse : string -> completion (list reading)) (w : exchange)
  : outcome :=
  match answer w with
  | Response status text =>
      if (status =? 200)%Z then
        match JSON_parse text with
        | Normal body => Success body
        | Throw e => Failure (String_error e)
        end
      else Failure text
  | Rejected e => Failure (String_error e)
  end.

Definition readings_of (o : outcome) : list reading :=
  match o with
  | Success body => body
  | Failure _ => []
  end.

Definition is_failure (o : outcome) : bool :=
  match o with
  | Success _ => false
  | Failure _ => true
  end.

(** The header every request carries. *)
Definition authorization (s : state) : string :=
  "Bearer " ++ Dom.value (Dom.password (page s)).

(** The events a computation added to the trace. *)
Definition added (s s' : state) (new : list event) : Prop :=
  trace s' = (trace s ++ new)%list.

(** The cleanup call of [fetch_data]. *)
Definition hides_in_flight (e : event) : bool :=
  match e with
  | ForEachHidden cls true => String.eqb cls "visible-until-loaded"
  | _ => false
  end.

Definition is_resetZoom (e : event) : bool :=
  match e with
  | ChartResetZoom => true
  | _ => false
  end.

(** Every element of class [cls] is hidden. *)
Definition all_hidden (cls : string) (d : Dom.document) : Prop :=
  Forall (fun e => Dom.has_class cls e = true -> Dom.hidden e = true)
         (Dom.elements d).

(** The page after [report_error message]. *)
Definition error_page (message : string) (d : Dom.document) : Dom.document :=
  Dom.on_error_message (Dom.set_hidden false)
    (Dom.on_error_message (Dom.set_textContent message)
       (Dom.forEach_set_hidden "hide-until-loaded" true d)).

(** The page after the success path of [fetch_data], before its cleanup. *)
Definition loaded_page (Date_toLocaleString : value -> string)
    (elapsed : Z) (body : list reading) (d : Dom.document) : Dom.document :=
  let shown :=
    Dom.forEach_set_hidden "hide-until-loaded" false
      (Dom.on_error_message (Dom.set_hidden true)
         (Dom.on_points_loaded
            (Dom.set_textContent (Number_toString (Z.of_nat (length body))))
            (Dom.on_load_time
               (Dom.set_textContent (Number_toString elapsed)) d))) in
  match head body, last body with
  | Some first, Some final =>
      Dom.on_end_date (Dom.set_textContent (Date_toLocaleString (time final)))
        (Dom.on_start_date
           (Dom.set_textContent (Date_toLocaleString (time first))) shown)
  | _, _ =>
      Dom.on_end_date (Dom.set_hidden true)
        (Dom.on_start_date (Dom.set_hidden true) shown)
  end.

(** The page once [fetch_data] has settled. *)
Definition settled_page (Date_toLocaleString : value -> string)
    (w : exchange) (o : outcome) (d : Dom.document) : Dom.document :=
  Dom.forEach_set_hidden "visible-until-loaded" true
    match o with
    | Success body =>
        loaded_page Date_toLocaleString (decoded w - started w) body d
    | Failure message => error_page message d
    end.

(** The CO2 series as the specification words it: walking the readings in
    order, a reading whose CO2 field is truthy contributes its point and any
    other reading contributes nothing. *)
Fixpoint co2_series_spec (readings : list reading) : list point :=
  match readings with
  | [] => []
  | r :: rest =>
      if truthy (co2 r) then Point (time r) (co2 r) :: co2_series_spec rest
      else co2_series_spec rest
  end.

(** The three series derived from a reading sequence, as both
    [fetch_range_data] and [fetch_range_data_between] build them. *)
Definition derived (data : list reading) : series :=
  Series (map (fun d => Point (time d) (temperature d)) data)
         (map (fun d => Point (time d) (humidity d)) data)
         (map (fun d => Point (time d) (co2 d))
              (List.filter (fun d => truthy (co2 d)) data)).

(** What the two range fetchers promise about the series they derive from
    the readings the fetcher returned. *)
Definition series_of_readings (body : list reading) (srs : series) : Prop :=
  co2_points srs = co2_series_spec body
  /\ temp srs = map (fun d => Point (time d) (temperature d)) body
  /\ humid srs = map (fun d => Point (time d) (humidity d)) body
  /\ length (temp srs) = length body
  /\ length (humid srs) = length body
  /\ (length (co2_points srs) <= length body)%nat.

(** The points the chart is given for a series. *)
Definition plotted (points : list point) : list xy :=
  map (fun d => XY (p_time d) (p_value d)) points.

(** The dataset list after [update_chart]. *)
Definition reconciled (data : series) (ds : list dataset) : list dataset :=
  match ds with
  | [d0; d1; d2] =>
      [set_data (plotted (temp data)) d0;
       set_data (plotted (humid data)) d1;
       set_data (plotted (co2_points data)) d2]
  | _ =>
      (ds ++ [Dataset "Temperature (C)" (plotted (temp data)) "y";
              Dataset "Humidity (%H)" (plotted (humid data)) "y1";
              Dataset "Co2 (ppm)" (plotted (co2_points data)) "y2"])%list
  end.

(** A band contains a level when [start <= level < end]. *)
Definition contains (level : Q) (b : band) : Prop :=
  (start b <= level)%Q /\ (level < end_ b)%Q.

(** The user actions the script is wired to. *)
Inductive trigger : Type :=
  | PresetChanged
  | CredentialChanged
  | ResetRequested
  | ZoomCompleted
  | PanCompleted.

Definition full_reload (t : trigger) : bool :=
  match t with
  | PresetChanged | CredentialChanged | ResetRequested => true
  | ZoomCompleted | PanCompleted => false
  end.

(** [timespan.onchange], [password.onchange], [reset.onclick], and the
    plugin's [onZoomComplete] and [onPanComplete] options. *)
Definition handler
    (JSON_parse : string -> completion (list reading))
    (Date_toLocaleString : value -> string)
    (t : trigger) : exchange -> M unit :=
  match t with
  | PresetChanged => timespan_onchange JSON_parse Date_toLocaleString
  | CredentialChanged => password_onchange JSON_parse Date_toLocaleString
  | ResetRequested => reset_onclick JSON_parse Date_toLocaleString
  | ZoomCompleted => on_zoom_complete_check JSON_parse Date_toLocaleString
  | PanCompleted => on_range_change JSON_parse Date_toLocaleString
  end.

(** The explicit-range query of a viewport: both bounds rounded, then the
    URL built from them. *)
Definition explicit_range_url (lo hi : Q) : string :=
  "/data/from/" ++ Number_toString (Math_round lo)
  ++ "/to/" ++ Number_toString (Math_round hi).

(** The URL a trigger requests, given the state it fires in. *)
Definition requested_url (t : trigger) (s : state) : string :=
  if full_reload t then "/data/range/" ++ Dom.value (Dom.timespan (page s))
  else explicit_range_url (xAxis_min (chart s)) (xAxis_max (chart s)).

(** The same state with the viewport bounds replaced. *)
Definition with_viewport (lo hi : Q) (s : state) : state :=
  State (page s) (Chart (datasets (chart s)) lo hi) (trace s).

End Spec.

(** ** The handlers, cut at the awaited request

    A handler runs without interruption up to [await fetch(...)] and, when
    the request has settled and its body has been read, from there to its
    end: between the two, other handlers can run.  (The status test between
    [await fetch] and the awaited body neither reads nor writes the page or
    the chart, and everything after the body is read runs in the microtasks
    of one task.) *)

Module Suspended.
Import Js Session BuildChart Spec.
#[local] Open Scope js_scope.
#[local] Open Scope string_scope.

Section Script.

Variable JSON_parse : string -> completion (list reading).
Variable Date_toLocaleString : value -> string.

(** [fetch_data] up to the awaited request: the header is built from the
    password field and the request leaves. *)
Definition fetch_data_request (url : string) : M unit :=
  let* authorization :=
    gets (fun s => "Bearer " ++ Dom.value (Dom.password (page s))) in
  modify (emit (Fetch url authorization)).

(** [fetch_data] from the settled request on. *)
Definition fetch_data_resume (w : exchange) : M (list reading) :=
  let start := started w in
  try_catch_finally
    (let* data :=
       match answer w with
       | Response status text => ret (status, text)
       | Rejected e => throw e
       end in
     if negb (fst data =? 200)%Z then
       report_error (snd data) ;;
       ret []
     else
       let* body := lift (JSON_parse (snd data)) in
       let end' := decoded w in
       modify (on_page (Dom.on_load_time
                 (Dom.set_textContent (Number_toString (end' - start))))) ;;
       modify (on_page (Dom.on_points_loaded
                 (Dom.set_textContent
                    (Number_toString (Z.of_nat (length body)))))) ;;
       modify (on_page (Dom.on_error_message (Dom.set_hidden true))) ;;
       querySelectorAll_forEach_hidden "hide-until-loaded" false ;;
       (if (0 <? length body)%nat then
          let* first := read (body !! 0%nat) "time" time in
          modify (on_page (Dom.on_start_date
                    (Dom.set_textContent (Date_toLocaleString first)))) ;;
          let* last := read (body !! (length body - 1)%nat) "time" time in
          modify (on_page (Dom.on_end_date
                    (Dom.set_textContent (Date_toLocaleString last))))
        else
          modify (on_page (Dom.on_start_date (Dom.set_hidden true))) ;;
          modify (on_page (Dom.on_end_date (Dom.set_hidden true)))) ;;
       ret body)
    (fun error =>
       report_error (String_error error) ;;
       ret [])
    (querySelectorAll_forEach_hidden "visible-until-loaded" true).

(** A handler up to the awaited request. *)
Definition request (t : trigger) : M unit :=
  if full_reload t then
    let* range := gets (fun s => Dom.value (Dom.timespan (page s))) in
    fetch_data_request ("/data/range/" ++ range)
  else
    let* min := gets (fun s => Math_round (xAxis_min (chart s))) in
    let* max := gets (fun s => Math_round (xAxis_max (chart s))) in
    fetch_data_request ("/data/from/" ++ Number_toString min
                        ++ "/to/" ++ Number_toString max).

(** A handler from the settled request on. *)
Definition resume (t : trigger) (w : exchange) : M unit :=
  let* data := fetch_data_resume w in
  update_chart (derived data) ;;
  if full_reload t then chart_resetZoom else ret tt.

End Script.

End Suspended.

(** ** Vocabulary of further statements *)

Module Runs.
Import Js Session BuildChart Spec.
#[local] Open Scope string_scope.

(** The session after a sequence of user actions, each handled to its end
    before the next, with what the service answered to each. *)
Definition run_all
    (JSON_parse : string -> completion (list reading))
    (Date_toLocaleString : value -> string)
    (steps : list (trigger * exchange)) (s : state) : state :=
  fold_left
    (fun s step =>
       snd (handler JSON_parse Date_toLocaleString (fst step) (snd step) s))
    steps s.

Definition is_request (e : event) : bool :=
  match e with
  | Fetch _ _ => true
  | _ => false
  end.

Definition is_redraw (e : event) : bool :=
  match e with
  | ChartUpdate _ => true
  | _ => false
  end.

Definition is_console (e : event) : bool :=
  match e with
  | ConsoleLog _ _ => true
  | _ => false
  end.

(** Every element of class [cls] that is not of class [but] is shown. *)
Definition all_shown (cls but : string) (d : Dom.document) : Prop :=
  Forall (fun e => Dom.has_class cls e = true ->
                   Dom.has_class but e = false ->
                   Dom.hidden e = false)
         (Dom.elements d).

(** What happens in a session, in the order it happens: a user action is
    taken and its handler runs up to its request, or the request of an
    earlier action settles and its handler runs on to its end.  Any number
    of requests can be in flight. *)
Inductive occurrence : Type :=
  | Fired (t : trigger)
  | Settled (t : trigger) (w : exchange).

Definition occur
    (JSON_parse : string -> completion (list reading))
    (Date_toLocaleString : value -> string)
    (s : state) (o : occurrence) : state :=
  match o with
  | Fired t => snd (Suspended.request t s)
  | Settled t w =>
      snd (Suspended.resume JSON_parse Date_toLocaleString t w s)
  end.

(** The session after a schedule of occurrences. *)
Definition run_schedule
    (JSON_parse : string -> completion (list reading))
    (Date_toLocaleString : value -> string)
    (schedule : list occurrence) (s : state) : state :=
  fold_left (occur JSON_parse Date_toLocaleString) schedule s.

(** The schedule in which every request settles before the next action. *)
Definition in_turn (steps : list (trigger * exchange)) : list occurrence :=
  flat_map (fun step => [Fired (fst step); Settled (fst step) (snd step)])
           steps.

(** The three datasets the reconciler makes of a series. *)
Definition three (data : series) : list dataset :=
  [Dataset "Temperature (C)" (plotted (temp data)) "y";
   Dataset "Humidity (%H)" (plotted (humid data)) "y1";
   Dataset "Co2 (ppm)" (plotted (co2_points data)) "y2"].

(** Reachable dataset lists: none yet, or the three slots. *)
Definition slots (ds : list dataset) : Prop :=
  ds = [] \/ exists data, ds = three data.

(** Several updates of the first snapshot's chart, one after the other;
    a throw ends the sequence. *)
Fixpoint update_all (updates : list Snapshot1.converted) : M unit :=
  match updates with
  | [] => ret tt
  | data :: rest =>
      bind (Snapshot1.update_chart data) (fun _ => update_all rest)
  end.

(** Whether a string contains the character [/]. *)
Fixpoint has_slash (s : string) : bool :=
  match s with
  | EmptyString => false
  | String c rest => Ascii.eqb c "/"%char || has_slash rest
  end.

(** The dataset list of the fourth snapshot after [update_chart]. *)
Definition recreated (data : Snapshot4.fetched) (ds : list dataset)
  : list dataset :=
  (removelast (removelast ds)
   ++ [Dataset "Temperature (C)"
         (map (fun d => XY (Snapshot4.p_time d) (Snapshot4.p_value d))
              (Snapshot4.temp data)) "y";
       Dataset "Humidity (%H)"
         (map (fun d => XY (Snapshot4.p_time d) (Snapshot4.p_value d))
              (Snapshot4.humid data)) "y1"])%list.

End Runs.

(** ** Running the script *)

Module Facts.
Import Js Session BuildChart Spec.
#[local] Open Scope string_scope.

(** Unfolding the monad and the collaborators. *)
Ltac run :=
  unfold datasets_push, datasets_set_data, chart_update, chart_resetZoom,
    console_log, querySelectorAll_forEach_hidden, fetch, read, bind, gets,
    modify, ret, throw, lift, emit, on_page, on_chart, on_datasets;
  cbn.

(** *** Numbers and series *)

Lemma Math_round_integer (z : Z) : Math_round (inject_Z z) = z.
Proof.
  unfold Math_round, Qfloor, Qplus, inject_Z. cbn [Qnum Qden].
  symmetry. apply Z.div_unique with (r := 1%Z); lia.
Qed.

Lemma co2_series_filter (body : list reading) :
  map (fun d => Point (time d) (co2 d))
      (List.filter (fun d => truthy (co2 d)) body)
  = co2_series_spec body.
Proof.
  induction body as [|r body IH]; [reflexivity|].
  cbn [List.filter co2_series_spec].
  destruct (truthy (co2 r)); cbn [map]; rewrite IH; reflexivity.
Qed.

Lemma co2_series_length (body : list reading) :
  (length (co2_series_spec body) <= length body)%nat.
Proof.
  induction body as [|r body IH]; [reflexivity|].
  cbn [co2_series_spec length].
  destruct (truthy (co2 r)); cbn [length]; lia.
Qed.

Lemma derived_series (body : list reading) :
  series_of_readings body (derived body).
Proof.
  unfold series_of_readings, derived. cbn [co2_points temp humid].
  rewrite co2_series_filter, !length_map.
  repeat split. apply co2_series_length.
Qed.

(** *** The band lookup *)

(** The test of [co2_map.find] decides containment. *)
Lemma band_test_contains (level : Q) (b : band) :
  Qle_bool (start b) level && Qlt_bool level (end_ b) = true
  <-> contains level b.
Proof.
  unfold contains, Qlt_bool.
  rewrite andb_true_iff, negb_true_iff, Qle_bool_iff.
  split; intros [H1 H2]; (split; [exact H1|]).
  - apply Qnot_le_lt. intros H. apply Qle_bool_iff in H. congruence.
  - destruct (Qle_bool (end_ b) level) eqn:E; [|reflexivity].
    apply Qle_bool_iff in E. exfalso. exact (Qlt_not_le _ _ H2 E).
Qed.

(** [find] returns the first element that passes the test. *)
Lemma find_is_first {A} (f : A -> bool) (l : list A) (a : A) :
  List.find f l = Some a ->
  exists before after,
    l = (before ++ a :: after)%list
    /\ f a = true
    /\ forall a', In a' before -> f a' = false.
Proof.
  induction l as [|x l IH]; [discriminate|].
  cbn [List.find]. destruct (f x) eqn:Hx.
  - intros [= <-]. exists [], l. repeat split; [exact Hx|]. intros a' [].
  - intros H. destruct (IH H) as (before & after & -> & Ha & Hb).
    exists (x :: before), after. repeat split; [exact Ha|].
    intros a' [<-|Hin]; [exact Hx|apply Hb, Hin].
Qed.

Lemma find_nothing {A} (f : A -> bool) (l : list A) :
  (forall a, In a l -> f a = false) -> List.find f l = None.
Proof.
  induction l as [|x l IH]; [reflexivity|].
  intros H. cbn [List.find]. rewrite (H x) by (left; reflexivity).
  apply IH. intros a Ha. apply H. right. exact Ha.
Qed.

Lemma find_something {A} (f : A -> bool) (l : list A) (a : A) :
  In a l -> f a = true -> exists a', List.find f l = Some a'.
Proof.
  intros Hin Ha. destruct (List.find f l) as [a'|] eqn:E; [eauto|].
  exfalso. pose proof (List.find_none f l E a Hin) as H. congruence.
Qed.

(** *** The page *)

Lemma has_class_set_hidden_if (cls cls' : string) (b : bool)
    (e : Dom.element) :
  Dom.has_class cls (Dom.set_hidden_if cls' b e) = Dom.has_class cls e.
Proof.
  unfold Dom.set_hidden_if. destruct (Dom.has_class cls' e); reflexivity.
Qed.

Lemma hidden_set_hidden_if (cls : string) (e : Dom.element) :
  Dom.has_class cls e = true ->
  Dom.hidden (Dom.set_hidden_if cls true e) = true.
Proof.
  intros H. unfold Dom.set_hidden_if. rewrite H. reflexivity.
Qed.

Lemma hidden_set_hidden_if_other (cls : string) (e : Dom.element) :
  Dom.hidden e = true -> Dom.hidden (Dom.set_hidden_if cls true e) = true.
Proof.
  intros H. unfold Dom.set_hidden_if.
  destruct (Dom.has_class cls e); [reflexivity|exact H].
Qed.

(** Evaluating the record updates of a page, innermost first. *)
Ltac page_cbv :=
  cbv beta iota delta
    [all_hidden error_page Dom.forEach_set_hidden Dom.elements
     Dom.map_document Dom.on_error_message Dom.ctx Dom.load_time
     Dom.points_loaded Dom.timespan Dom.error_message Dom.reset
     Dom.start_date Dom.end_date Dom.password Dom.co2_box Dom.others].

Lemma all_hidden_forEach (cls : string) (d : Dom.document) :
  all_hidden cls (Dom.forEach_set_hidden cls true d).
Proof.
  destruct d as [e0 e1 e2 e3 e4 e5 e6 e7 e8 e9 rest]. page_cbv.
  assert (E : forall e,
             Dom.has_class cls (Dom.set_hidden_if cls true e) = true ->
             Dom.hidden (Dom.set_hidden_if cls true e) = true).
  { intros e. rewrite has_class_set_hidden_if. apply hidden_set_hidden_if. }
  do 10 (constructor; [apply E|]).
  apply List.Forall_forall. intros e He. apply in_map_iff in He.
  destruct He as [e' [<- _]]. apply E.
Qed.

(** After [report_error] and the cleanup, every result-dependent element
    is hidden, provided the error display is not one of them. *)
Lemma all_hidden_error_page (message : string) (d : Dom.document) :
  Dom.has_class "hide-until-loaded" (Dom.error_message d) = false ->
  all_hidden "hide-until-loaded"
    (Dom.forEach_set_hidden "visible-until-loaded" true
       (error_page message d)).
Proof.
  destruct d as [e0 e1 e2 e3 e4 e5 e6 e7 e8 e9 rest].
  cbn [Dom.error_message]. intros Herr. page_cbv.
  assert (E : forall e,
             Dom.has_class "hide-until-loaded"
               (Dom.set_hidden_if "visible-until-loaded" true
                  (Dom.set_hidden_if "hide-until-loaded" true e)) = true ->
             Dom.hidden
               (Dom.set_hidden_if "visible-until-loaded" true
                  (Dom.set_hidden_if "hide-until-loaded" true e)) = true).
  { intros e. rewrite !has_class_set_hidden_if. intros H.
    apply hidden_set_hidden_if_other, hidden_set_hidden_if, H. }
  do 4 (constructor; [apply E|]).
  constructor.
  { rewrite has_class_set_hidden_if.
    change (Dom.has_class "hide-until-loaded"
              (Dom.set_hidden_if "hide-until-loaded" true e4) = true -> 
            Dom.hidden
              (Dom.set_hidden_if "visible-until-loaded" true
                 (Dom.set_hidden false
                    (Dom.set_textContent message
                       (Dom.set_hidden_if "hide-until-loaded" true e4))))
            = true).
    rewrite has_class_set_hidden_if, Herr. discriminate. }
  do 5 (constructor; [apply E|]).
  rewrite map_map.
  apply List.Forall_forall. intros e He. apply in_map_iff in He.
  destruct He as [e' [<- _]]. apply E.
Qed.

(** *** The reconciler *)

Lemma update_chart_run (data : series) (s : state) :
  update_chart data s =
    (Normal tt,
     State (page s)
           (Chart (reconciled data (datasets (chart s)))
                  (xAxis_min (chart s)) (xAxis_max (chart s)))
           (trace s ++ [ChartUpdate "none"])).
Proof.
  destruct s as [pg [ds lo hi] tr].
  destruct ds as [|d0 [|d1 [|d2 [|d3 ds]]]]; try reflexivity;
    unfold update_chart; run; rewrite <- ?app_assoc; reflexivity.
Qed.

Lemma three_datasets (ds : list dataset) :
  length ds = 3%nat -> exists d0 d1 d2, ds = [d0; d1; d2].
Proof.
  destruct ds as [|d0 [|d1 [|d2 [|d3 ds]]]]; try discriminate.
  intros _. exists d0, d1, d2. reflexivity.
Qed.

Lemma reconciled_insert (data : series) (ds : list dataset) :
  length ds <> 3%nat ->
  reconciled data ds
  = (ds ++ [Dataset "Temperature (C)" (plotted (temp data)) "y";
            Dataset "Humidity (%H)" (plotted (humid data)) "y1";
            Dataset "Co2 (ppm)" (plotted (co2_points data)) "y2"])%list.
Proof.
  destruct ds as [|d0 [|d1 [|d2 [|d3 ds]]]]; try reflexivity.
  cbn. lia.
Qed.

Section Fetch.

Variable JSON_parse : string -> completion (list reading).
Variable Date_toLocaleString : value -> string.

(** *** The fetcher *)

(** Every call of [fetch_data] returns normally, with the readings of the
    outcome; it leaves the chart alone; it adds to the trace the request,
    one toggle of the result-dependent elements and, last, the hiding of the
    in-flight elements. *)
Lemma fetch_data_run (w : exchange) (url : string) (s : state) :
  fetch_data JSON_parse Date_toLocaleString w url s =
    (Normal (readings_of (classify JSON_parse w)),
     State (settled_page Date_toLocaleString w (classify JSON_parse w)
              (page s))
           (chart s)
           (trace s ++ [Fetch url (authorization s);
                        ForEachHidden "hide-until-loaded"
                          (is_failure (classify JSON_parse w));
                        ForEachHidden "visible-until-loaded" true])).
Proof.
  unfold classify, settled_page, BuildChart.fetch_data, try_catch_finally,
    report_error, error_page, loaded_page, authorization.
  destruct s as [pg ch tr]. run.
  destruct (answer w) as [status text | e]; cbn.
  - destruct (status =? 200)%Z; cbn.
    + destruct (JSON_parse text) as [body | e]; cbn.
      * destruct body as [|r body]; cbn.
        -- rewrite <- !app_assoc. reflexivity.
        -- rewrite Nat.sub_0_r.
           replace (list.last (r :: body)) with ((r :: body) !! length body)
             by (rewrite last_lookup; reflexivity).
           destruct (lookup_lt_is_Some_2 (r :: body) (length body))
             as [r1 Hr1]; [cbn; lia|].
           rewrite Hr1. cbn. rewrite <- !app_assoc. reflexivity.
      * rewrite <- !app_assoc. reflexivity.
    + rewrite <- !app_assoc. reflexivity.
  - rewrite <- !app_assoc. reflexivity.
Qed.

(** Whatever the [try] block and the [catch] block do, throwing included,
    the [finally] block of [fetch_data] runs last. *)
Lemma try_catch_finally_cleanup {A} (body : M A) (handler : error -> M A)
    (cls : string) (s : state) :
  exists r s1,
    try_catch_finally body handler
      (querySelectorAll_forEach_hidden cls true) s
    = (r, State (Dom.forEach_set_hidden cls true (page s1)) (chart s1)
                (trace s1 ++ [ForEachHidden cls true])).
Proof.
  unfold try_catch_finally, querySelectorAll_forEach_hidden, modify, emit,
    on_page.
  destruct (body s) as [[a|e] s1].
  - exists (Normal a), s1. reflexivity.
  - destruct (handler e s1) as [r s2]. exists r, s2. reflexivity.
Qed.

(** *** The pipelines *)

Lemma fetch_range_data_run (w : exchange) (range : string) (s : state) :
  fetch_range_data JSON_parse Date_toLocaleString w range s =
    (Normal (derived (readings_of (classify JSON_parse w))),
     snd (fetch_data JSON_parse Date_toLocaleString w
            ("/data/range/" ++ range) s)).
Proof.
  unfold fetch_range_data, bind. rewrite fetch_data_run. reflexivity.
Qed.

Lemma fetch_range_data_between_run (w : exchange) (start_ms stop_ms : Z)
    (s : state) :
  fetch_range_data_between JSON_parse Date_toLocaleString w start_ms stop_ms s
  = (Normal (derived (readings_of (classify JSON_parse w))),
     snd (fetch_data JSON_parse Date_toLocaleString w
            ("/data/from/" ++ Number_toString start_ms
             ++ "/to/" ++ Number_toString stop_ms) s)).
Proof.
  unfold fetch_range_data_between, bind. rewrite fetch_data_run. reflexivity.
Qed.

(** Every handler returns normally.  It is one fetch of [requested_url],
    then the reconciler on the derived series, then, for a full reload
    only, [chart.resetZoom]. *)
Lemma handler_run (t : trigger) (w : exchange) (s : state) :
  handler JSON_parse Date_toLocaleString t w s =
    (Normal tt,
     State (settled_page Date_toLocaleString w (classify JSON_parse w)
              (page s))
           (Chart (reconciled (derived (readings_of (classify JSON_parse w)))
                     (datasets (chart s)))
                  (xAxis_min (chart s)) (xAxis_max (chart s)))
           (trace s
            ++ [Fetch (requested_url t s) (authorization s);
                ForEachHidden "hide-until-loaded"
                  (is_failure (classify JSON_parse w));
                ForEachHidden "visible-until-loaded" true;
                ChartUpdate "none"]
            ++ (if full_reload t then [ChartResetZoom] else []))).
Proof.
  destruct t; cbn [handler full_reload requested_url];
    unfold password_onchange, reset_onclick, timespan_onchange,
      on_zoom_complete_check, on_range_change;
    unfold bind at 1; unfold gets at 1; cbn beta iota;
    try (unfold bind at 1; unfold gets at 1; cbn beta iota);
    unfold bind at 1.
  1-3: rewrite fetch_range_data_run, fetch_data_run; cbn [snd];
       unfold bind; rewrite update_chart_run;
       unfold chart_resetZoom, modify, emit; cbn;
       rewrite <- !app_assoc; reflexivity.
  1-2: rewrite fetch_range_data_between_run, fetch_data_run; cbn [snd];
       rewrite update_chart_run; cbn;
       rewrite <- !app_assoc; reflexivity.
Qed.

End Fetch.

(** *** The Buck formula *)

Lemma saturation_pressure_positive (temperature_c : R) :
  (0 < Humidity.calculate_saturation_pressure temperature_c)%R.
Proof.
  unfold Humidity.calculate_saturation_pressure. cbv zeta.
  match goal with |- (0 < _ * exp ?p)%R => pose proof (exp_pos p) end.
  lra.
Qed.

End Facts.

(** ** The reconciler keeps the dataset slots *)

Import Js Session Spec Facts.
#[local] Open Scope string_scope.

(** C3.  On a chart whose dataset list holds the three slots, the
    reconciler of the last snapshot returns normally and replaces only the
    point sequence of each dataset, at its index: the count stays three, the
    labels and the axis bindings stay what they were and in the order they
    were, the page and the viewport are untouched, and a second call with
    the same series leaves the dataset list exactly as the first call left
    it.  On any other dataset count the call appends the temperature,
    humidity and CO2 datasets, in that order, so that from the empty list
    the first call populates the chart.  The first snapshot's reconciler
    does the same with its two slots: once they are there it replaces
    only their two point sequences, leaving count, labels, axis bindings,
    page and viewport as they were, a second call with the same series
    changing nothing more; on the empty list it inserts the temperature and
    humidity datasets, in that order. *)
Theorem reconcile_in_place (data : BuildChart.series) (s : state)
    (Hpopulated : length (datasets (chart s)) = 3%nat) :
  (exists s',
      BuildChart.update_chart data s = (Normal tt, s')
      /\ length (datasets (chart s')) = 3%nat
      /\ map label (datasets (chart s')) = map label (datasets (chart s))
      /\ map yAxisID (datasets (chart s')) = map yAxisID (datasets (chart s))
      /\ map Session.data (datasets (chart s'))
         = [plotted (BuildChart.temp data); plotted (BuildChart.humid data);
            plotted (BuildChart.co2_points data)]
      /\ page s' = page s
      /\ xAxis_min (chart s') = xAxis_min (chart s)
      /\ xAxis_max (chart s') = xAxis_max (chart s)
      /\ exists s'',
          BuildChart.update_chart data s' = (Normal tt, s'')
          /\ datasets (chart s'') = datasets (chart s'))
  /\ (forall s0 : state,
         length (datasets (chart s0)) <> 3%nat ->
         exists s0',
           BuildChart.update_chart data s0 = (Normal tt, s0')
           /\ datasets (chart s0')
              = (datasets (chart s0)
                 ++ [Dataset "Temperature (C)"
                       (plotted (BuildChart.temp data)) "y";
                     Dataset "Humidity (%H)"
                       (plotted (BuildChart.humid data)) "y1";
                     Dataset "Co2 (ppm)"
                       (plotted (BuildChart.co2_points data)) "y2"])%list)
  /\ (forall (data1 : Snapshot1.converted) (s1 : state),
         length (datasets (chart s1)) = 2%nat ->
         exists s1',
           Snapshot1.update_chart data1 s1 = (Normal tt, s1')
           /\ length (datasets (chart s1')) = 2%nat
           /\ map label (datasets (chart s1')) = map label (datasets (chart s1))
           /\ map yAxisID (datasets (chart s1'))
              = map yAxisID (datasets (chart s1))
           /\ map Session.data (datasets (chart s1'))
              = [map (fun d => XY (Snapshot1.p_time d) (Snapshot1.p_value d))
                     (Snapshot1.temp data1);
                 map (fun d => XY (Snapshot1.p_time d) (Snapshot1.p_value d))
                     (Snapshot1.humid data1)]
           /\ page s1' = page s1
           /\ xAxis_min (chart s1') = xAxis_min (chart s1)
           /\ xAxis_max (chart s1') = xAxis_max (chart s1)
           /\ exists s1'',
               Snapshot1.update_chart data1 s1' = (Normal tt, s1'')
               /\ datasets (chart s1'') = datasets (chart s1'))
  /\ (forall (data1 : Snapshot1.converted) (s1 : state),
         datasets (chart s1) = [] ->
         exists s1',
           Snapshot1.update_chart data1 s1 = (Normal tt, s1')
           /\ datasets (chart s1')
              = [Dataset "Temperature (C)"
                   (map (fun d => XY (Snapshot1.p_time d)
                                     (Snapshot1.p_value d))
                        (Snapshot1.temp data1)) "y";
                 Dataset "Humidity (%H)"
                   (map (fun d => XY (Snapshot1.p_time d)
                                     (Snapshot1.p_value d))
                        (Snapshot1.humid data1)) "y1"]
           /\ page s1' = page s1
           /\ xAxis_min (chart s1') = xAxis_min (chart s1)
           /\ xAxis_max (chart s1') = xAxis_max (chart s1)).
Proof.
  split; [|split; [|split]].
  - destruct (three_datasets _ Hpopulated) as (d0 & d1 & d2 & Hds).
    rewrite update_chart_run.
    eexists; split; [reflexivity|].
    cbn [chart datasets page xAxis_min xAxis_max].
    rewrite Hds. cbn [reconciled]. repeat split.
    rewrite update_chart_run.
    eexists; split; reflexivity.
  - intros s0 Hn. rewrite update_chart_run.
    eexists; split; [reflexivity|]. apply reconciled_insert, Hn.
  - intros data1 [pg [ds lo hi] tr] Hlen. cbn in Hlen.
    destruct ds as [|d0 [|d1 [|d2 ds]]]; try discriminate.
    eexists; split; [reflexivity|].
    do 7 (split; [reflexivity|]).
    eexists; split; reflexivity.
  - intros data1 [pg [ds lo hi] tr] Hds. cbn in Hds. subst ds.
    eexists; split; [reflexivity|]. repeat split.
Qed.

(** The sample session after its first reload is populated; an update
    keeps its labels, and the same update populates the fresh session. *)
Lemma reconcile_in_place_witness :
  length (datasets (chart Sample.loaded)) = 3%nat
  /\ map label
       (datasets (chart (snd (BuildChart.update_chart
                                (derived Sample.readings) Sample.loaded))))
     = ["Temperature (C)"; "Humidity (%H)"; "Co2 (ppm)"]
  /\ length
       (datasets (chart (snd (BuildChart.update_chart
                                (derived Sample.readings) Sample.fresh))))
     = 3%nat.
Proof.
  assert (Hpop : length (datasets (chart Sample.loaded)) = 3%nat)
    by reflexivity.
  destruct (reconcile_in_place (derived Sample.readings) Sample.loaded Hpop)
    as [Hin [Hins _]].
  split; [exact Hpop|]. split.
  - destruct Hin as (s' & Hrun & _ & Hlabel & _). rewrite Hrun. exact Hlabel.
  - destruct (Hins Sample.fresh) as (s0' & Hrun & Hds).
    + cbn. lia.
    + rewrite Hrun. cbn [snd]. rewrite Hds. reflexivity.
Defined.

(** ** The fetcher and its handlers *)

Section Verified.

Variable JSON_parse : string -> completion (list BuildChart.reading).
Variable Date_toLocaleString : value -> string.

(** C1, as the script has it.  A pipeline that ends in failure (a response
    whose status is not 200, a rejected request, or an undecodable body)
    still runs the reconciler, on the empty reading sequence the fetcher
    returns: on a populated chart each of the three datasets keeps its
    label and axis binding and has its point sequence replaced by the empty
    sequence.  This holds for every trigger, full reload or refresh. *)
Theorem failed_pipeline_empties_datasets (t : trigger)
    (w : exchange) (s : state) (message : string)
    (Hfail : classify JSON_parse w = Failure message)
    (Hpopulated : length (datasets (chart s)) = 3%nat) :
  exists s',
    handler JSON_parse Date_toLocaleString t w s = (Normal tt, s')
    /\ map label (datasets (chart s')) = map label (datasets (chart s))
    /\ map yAxisID (datasets (chart s')) = map yAxisID (datasets (chart s))
    /\ map data (datasets (chart s')) = [[]; []; []].
Proof.
  rewrite handler_run, Hfail.
  destruct (three_datasets _ Hpopulated) as (d0 & d1 & d2 & Hds).
  eexists; split; [reflexivity|]. cbn [chart datasets]. rewrite Hds.
  repeat split.
Qed.

(** C4.  Whatever the exchange does (a decoded 200 response, a response
    with another status, a rejected request, an undecodable body),
    [fetch_data] returns, and what it added to the trace is the request,
    then events among which the in-flight elements are not touched, then,
    as the last event, the one call that hides every element of class
    [visible-until-loaded]; all these elements are hidden in the page it
    leaves.  The call sits in a [finally] block, which runs last however
    the [try] and [catch] blocks before it end. *)
Theorem in_flight_hidden_once_on_every_path
    (w : exchange) (url : string) (s : state) :
  (exists body s' between,
      BuildChart.fetch_data JSON_parse Date_toLocaleString w url s
        = (Normal body, s')
      /\ added s s'
           (Fetch url (authorization s) :: between
            ++ [ForEachHidden "visible-until-loaded" true])
      /\ List.filter hides_in_flight
           (Fetch url (authorization s) :: between) = []
      /\ length
           (List.filter hides_in_flight
              (Fetch url (authorization s) :: between
               ++ [ForEachHidden "visible-until-loaded" true])) = 1%nat
      /\ all_hidden "visible-until-loaded" (page s'))
  /\ (forall (body : M (list BuildChart.reading))
        (handler : error -> M (list BuildChart.reading)),
         exists r s1,
           try_catch_finally body handler
             (querySelectorAll_forEach_hidden "visible-until-loaded" true) s
           = (r, State (Dom.forEach_set_hidden "visible-until-loaded" true
                          (page s1))
                       (chart s1)
                       (trace s1
                        ++ [ForEachHidden "visible-until-loaded" true]))).
Proof.
  split.
  - rewrite fetch_data_run.
    eexists _, _,
      [ForEachHidden "hide-until-loaded"
         (is_failure (classify JSON_parse w))].
    split; [reflexivity|]. split; [reflexivity|].
    split; [|split].
    + destruct (is_failure (classify JSON_parse w)); reflexivity.
    + destruct (is_failure (classify JSON_parse w)); reflexivity.
    + cbn [page]. unfold settled_page. apply all_hidden_forEach.
  - intros body handler. apply try_catch_finally_cleanup.
Qed.

(** C5.  A response whose status is not 200 makes [fetch_data] return the
    empty array after reporting the failure with the body text as its
    message: the error display's text is the body text, the error display
    is shown, and every element of class [hide-until-loaded] is hidden.
    The page is assumed to keep the error display out of the two toggled
    classes. *)
Theorem non_200_reports_body_text
    (w : exchange) (url : string) (s : state) (status : Z) (text : string)
    (Hanswer : answer w = Response status text)
    (Hstatus : status <> 200%Z)
    (Hrole : Dom.has_class "hide-until-loaded"
               (Dom.error_message (page s)) = false)
    (Hrole' : Dom.has_class "visible-until-loaded"
                (Dom.error_message (page s)) = false) :
  classify JSON_parse w = Failure text
  /\ exists s',
      BuildChart.fetch_data JSON_parse Date_toLocaleString w url s
        = (Normal [], s')
      /\ Dom.textContent (Dom.error_message (page s')) = text
      /\ Dom.hidden (Dom.error_message (page s')) = false
      /\ all_hidden "hide-until-loaded" (page s').
Proof.
  assert (Hc : classify JSON_parse w = Failure text).
  { unfold classify. rewrite Hanswer.
    destruct (status =? 200)%Z eqn:E; [apply Z.eqb_eq in E; lia|reflexivity]. }
  split; [exact Hc|].
  rewrite fetch_data_run, Hc.
  eexists; split; [reflexivity|]. cbn [page]. unfold settled_page.
  destruct (page s) as [e0 e1 e2 e3 e4 e5 e6 e7 e8 e9 rest].
  cbn [Dom.error_message] in Hrole, Hrole'.
  assert (Hkeep : Dom.set_hidden_if "hide-until-loaded" true e4 = e4)
    by (unfold Dom.set_hidden_if; rewrite Hrole; reflexivity).
  split; [|split].
  - page_cbv. rewrite Hkeep. unfold Dom.set_hidden_if.
    match goal with
    | |- Dom.textContent (if ?c then _ else _) = _ => destruct c
    end; reflexivity.
  - page_cbv. rewrite Hkeep. unfold Dom.set_hidden_if.
    change (Dom.has_class "visible-until-loaded"
              (Dom.set_hidden false (Dom.set_textContent text e4)))
      with (Dom.has_class "visible-until-loaded" e4).
    rewrite Hrole'. reflexivity.
  - apply all_hidden_error_page, Hrole.
Qed.

(** C6.  Both range fetchers return, whatever the exchange, the series
    derived from the readings [fetch_data] returned: the CO2 series is the
    one the specification describes (one point per reading whose CO2 field
    is truthy, in order, none for the others), while the temperature and
    humidity series have one point per reading; so the CO2 series is never
    longer and can be shorter.  An absent CO2 field and a CO2 of 0 are both
    falsy. *)
Theorem co2_series_keeps_truthy_readings (w : exchange) (s : state) :
  (forall range : string,
      exists body srs s',
        BuildChart.fetch_data JSON_parse Date_toLocaleString w
          ("/data/range/" ++ range) s = (Normal body, s')
        /\ BuildChart.fetch_range_data JSON_parse Date_toLocaleString
             w range s = (Normal srs, s')
        /\ series_of_readings body srs)
  /\ (forall start_ms stop_ms : Z,
         exists body srs s',
           BuildChart.fetch_data JSON_parse Date_toLocaleString w
             ("/data/from/" ++ Number_toString start_ms
              ++ "/to/" ++ Number_toString stop_ms) s = (Normal body, s')
           /\ BuildChart.fetch_range_data_between JSON_parse
                Date_toLocaleString w start_ms stop_ms s = (Normal srs, s')
           /\ series_of_readings body srs)
  /\ truthy undefined = false
  /\ truthy (Some (JNum 0)) = false
  /\ (forall r : BuildChart.reading,
         co2_series_spec [r]
         = if truthy (BuildChart.co2 r)
           then [BuildChart.Point (BuildChart.time r) (BuildChart.co2 r)]
           else [])
  /\ (let srs := derived Sample.readings in
      length (BuildChart.temp srs) = 3%nat
      /\ length (BuildChart.humid srs) = 3%nat
      /\ BuildChart.co2_points srs
         = [BuildChart.Point (Some (JNum 3000)) (Some (JNum 500))]).
Proof.
  split; [|split; [|split; [|split; [|split]]]].
  - intros range. rewrite fetch_range_data_run.
    destruct (BuildChart.fetch_data JSON_parse Date_toLocaleString w
                ("/data/range/" ++ range) s) as [r s'] eqn:Hf.
    rewrite fetch_data_run in Hf. injection Hf as <- <-.
    eexists _, _, _. split; [reflexivity|]. split; [reflexivity|].
    apply derived_series.
  - intros start_ms stop_ms. rewrite fetch_range_data_between_run.
    destruct (BuildChart.fetch_data JSON_parse Date_toLocaleString w
                ("/data/from/" ++ Number_toString start_ms
                 ++ "/to/" ++ Number_toString stop_ms) s) as [r s'] eqn:Hf.
    rewrite fetch_data_run in Hf. injection Hf as <- <-.
    eexists _, _, _. split; [reflexivity|]. split; [reflexivity|].
    apply derived_series.
  - reflexivity.
  - reflexivity.
  - intros r. cbn. destruct (truthy (BuildChart.co2 r)); reflexivity.
  - repeat split.
Qed.

(** C7.  Every trigger runs its pipeline to the end.  For a full reload
    (preset changed, credential changed, reset requested) the last two
    events are the redraw of the reconciler and then [chart.resetZoom],
    and nothing before them resets the viewport; for a completed zoom or
    pan the redraw is the last event and the viewport is never reset. *)
Theorem viewport_reset_only_on_full_reload
    (t : trigger) (w : exchange) (s : state) :
  exists s' before,
    handler JSON_parse Date_toLocaleString t w s = (Normal tt, s')
    /\ List.filter is_resetZoom before = []
    /\ added s s'
         (before ++ ChartUpdate "none"
          :: (if full_reload t then [ChartResetZoom] else [])).
Proof.
  rewrite handler_run.
  eexists _,
    [Fetch (requested_url t s) (authorization s);
     ForEachHidden "hide-until-loaded" (is_failure (classify JSON_parse w));
     ForEachHidden "visible-until-loaded" true].
  split; [reflexivity|]. split; reflexivity.
Qed.

(** C10.  Rounding is idempotent, [Math.round] of an already rounded bound
    is that bound, so the explicit-range query of the rounded viewport is
    the query of the viewport itself; and that query is the one a completed
    zoom or pan fetches: fired again on the rounded viewport, the handler
    issues the same request and leaves the same trace, page and
    datasets. *)
Theorem rounded_viewport_query_idempotent
    (zoom : bool) (w : exchange) (s : state) :
  let t := if zoom then ZoomCompleted else PanCompleted in
  let lo := xAxis_min (chart s) in
  let hi := xAxis_max (chart s) in
  let rounded :=
    with_viewport (inject_Z (Math_round lo)) (inject_Z (Math_round hi)) s in
  Math_round (inject_Z (Math_round lo)) = Math_round lo
  /\ Math_round (inject_Z (Math_round hi)) = Math_round hi
  /\ explicit_range_url (inject_Z (Math_round lo)) (inject_Z (Math_round hi))
     = explicit_range_url lo hi
  /\ exists s' s'' rest,
      handler JSON_parse Date_toLocaleString t w s = (Normal tt, s')
      /\ added s s' (Fetch (explicit_range_url lo hi) (authorization s)
                     :: rest)
      /\ handler JSON_parse Date_toLocaleString t w rounded = (Normal tt, s'')
      /\ trace s'' = trace s'
      /\ page s'' = page s'
      /\ datasets (chart s'') = datasets (chart s').
Proof.
  intros t lo hi rounded.
  assert (Hurl : explicit_range_url (inject_Z (Math_round lo))
                   (inject_Z (Math_round hi)) = explicit_range_url lo hi)
    by (unfold explicit_range_url; rewrite !Math_round_integer; reflexivity).
  split; [apply Math_round_integer|]. split; [apply Math_round_integer|].
  split; [exact Hurl|].
  rewrite !handler_run.
  assert (Hreq : requested_url t s = explicit_range_url lo hi)
    by (subst t; destruct zoom; reflexivity).
  assert (Hreq' : requested_url t rounded = explicit_range_url lo hi)
    by (subst t; destruct zoom; exact Hurl).
  assert (Hrefresh : full_reload t = false)
    by (subst t; destruct zoom; reflexivity).
  rewrite Hreq, Hreq', Hrefresh.
  eexists _, _, _. split; [reflexivity|].
  split; [unfold added; cbn [trace app]; reflexivity|].
  split; [reflexivity|]. repeat split.
Qed.

End Verified.

(** ** The CO2 box *)

(** C8.  When some band of the table contains the level, the lookup selects
    the first band of the table that contains it (the only one, when bands
    do not overlap), the update returns normally, and the box shows that
    band's description on that band's color. *)
Theorem band_lookup_applies_containing_band
    (co2_map : list band) (level : Q) (s : state)
    (Hcovered : exists b, In b co2_map /\ contains level b) :
  exists b before after s',
    co2_map = (before ++ b :: after)%list
    /\ (forall b', In b' before -> ~ contains level b')
    /\ contains level b
    /\ BuildChart.update_co2_box co2_map level s = (Normal tt, s')
    /\ Dom.textContent (Dom.co2_box (page s')) = description b
    /\ Dom.backgroundColor (Dom.co2_box (page s')) = color b
    /\ chart s' = chart s.
Proof.
  destruct Hcovered as (b0 & Hin & Hb0).
  apply band_test_contains in Hb0.
  set (test := fun elem : band =>
                 Qle_bool (start elem) level && Qlt_bool level (end_ elem)).
  destruct (find_something test co2_map b0 Hin Hb0) as [b Hfind].
  destruct (find_is_first test co2_map b Hfind)
    as (before & after & Hsplit & Hb & Hfirst).
  destruct s as [[e0 e1 e2 e3 e4 e5 e6 e7 e8 e9 rest] ch tr].
  exists b, before, after. eexists.
  split; [exact Hsplit|]. split.
  { intros b' Hb' Hc. apply band_test_contains in Hc.
    pose proof (Hfirst b' Hb') as Hb'test. unfold test in Hb'test.
    rewrite Hb'test in Hc. discriminate. }
  split; [apply band_test_contains, Hb|].
  unfold BuildChart.update_co2_box. fold test. rewrite Hfind. run.
  split; [reflexivity|]. repeat split.
Qed.

(** Scenario D, computed. *)
Example scenario_D :
  let s' := snd (BuildChart.update_co2_box Sample.co2_map 550 Sample.loaded) in
  fst (BuildChart.update_co2_box Sample.co2_map 550 Sample.loaded) = Normal tt
  /\ Dom.textContent (Dom.co2_box (page s')) = "Good"
  /\ Dom.backgroundColor (Dom.co2_box (page s')) = "green".
Proof. repeat split. Qed.

(** C9, as the script has it.  When no band of the table contains the
    level, the lookup yields no match ([undefined] is what the second
    [console.log] is given), and neither a description nor a color is
    applied: the page and the chart are what they were.  The script has no
    branch for this case; reading the description of the missing match
    throws a [TypeError], and that is how the update ends. *)
Theorem unmatched_level_applies_nothing
    (co2_map : list band) (level : Q) (s : state)
    (Huncovered : forall b, In b co2_map -> ~ contains level b) :
  exists s',
    BuildChart.update_co2_box co2_map level s
      = (Throw (TypeError_undefined "description"), s')
    /\ added s s' [ConsoleLog "current_co2 is fetched: " (LNumber level);
                   ConsoleLog "current level: " (LBand None)]
    /\ page s' = page s
    /\ chart s' = chart s.
Proof.
  set (test := fun elem : band =>
                 Qle_bool (start elem) level && Qlt_bool level (end_ elem)).
  assert (Hfind : List.find test co2_map = None).
  { apply find_nothing. intros b Hb. destruct (test b) eqn:E; [|reflexivity].
    apply band_test_contains in E. destruct (Huncovered b Hb E). }
  unfold BuildChart.update_co2_box. fold test. rewrite Hfind.
  destruct s as [pg ch tr]. run. eexists. split; [reflexivity|].
  unfold added. cbn [trace]. rewrite <- app_assoc. repeat split.
Qed.

(** ** Absolute humidity *)

(** C2, as the formula has it.  For a temperature above 0 degrees Celsius
    and a relative humidity that is not negative, the absolute humidity the
    first snapshot derives is not negative. *)
Theorem absolute_humidity_nonnegative_above_zero (data : Humidity.reading)
    (Htemp : (0 < Humidity.temperature data)%R)
    (Hhum : (0 <= Humidity.humidity data)%R) :
  (0 <= Humidity.p_value (Humidity.absolute_humidity data))%R.
Proof.
  unfold Humidity.absolute_humidity. cbv zeta. cbn [Humidity.p_value].
  pose proof (saturation_pressure_positive (Humidity.temperature data)) as H.
  set (p := Humidity.calculate_saturation_pressure _) in *.
  apply Rmult_le_pos; [|lra]. apply Rmult_le_pos; [|lra].
  apply Rle_mult_inv_pos; [|lra].
  apply Rmult_le_pos; lra.
Qed.

(** Below 0 degrees Celsius the division by the temperature makes the
    value negative, for every positive relative humidity. *)
Lemma absolute_humidity_negative_below_zero (data : Humidity.reading) :
  (Humidity.temperature data < 0)%R ->
  (0 < Humidity.humidity data)%R ->
  (Humidity.p_value (Humidity.absolute_humidity data) < 0)%R.
Proof.
  intros Htemp Hhum.
  unfold Humidity.absolute_humidity. cbv zeta. cbn [Humidity.p_value].
  pose proof (saturation_pressure_positive (Humidity.temperature data)) as H.
  set (p := Humidity.calculate_saturation_pressure _) in *.
  assert (0 < p * (Humidity.humidity data / 100))%R
    by (apply Rmult_lt_0_compat; lra).
  assert (/ (461.5 * Humidity.temperature data) < 0)%R
    by (apply Rinv_lt_0_compat; lra).
  unfold Rdiv at 1. nra.
Qed.

(** ** The sample session *)

(** The sample session after its reload shows three, three and one points;
    a completed zoom answered by HTTP 500 leaves none of them. *)
Lemma failed_refresh_clears_rendered_points :
  classify Sample.JSON_parse Sample.unavailable = Failure "db unavailable"
  /\ map (fun d => length (data d)) (datasets (chart Sample.loaded))
     = [3; 3; 1]%nat
  /\ map (fun d => length (data d))
       (datasets (chart (snd (BuildChart.on_zoom_complete_check
                                Sample.JSON_parse Sample.Date_toLocaleString
                                Sample.unavailable Sample.loaded))))
     = [0; 0; 0]%nat
  /\ datasets (chart (snd (BuildChart.on_zoom_complete_check
                             Sample.JSON_parse Sample.Date_toLocaleString
                             Sample.unavailable Sample.loaded)))
     <> datasets (chart Sample.loaded).
Proof.
  split; [reflexivity|]. split; [reflexivity|]. split; [reflexivity|].
  vm_compute. discriminate.
Qed.

Lemma failed_pipeline_empties_datasets_witness :
  classify Sample.JSON_parse Sample.unavailable = Failure "db unavailable"
  /\ length (datasets (chart Sample.loaded)) = 3%nat
  /\ exists s',
      handler Sample.JSON_parse Sample.Date_toLocaleString ZoomCompleted
        Sample.unavailable Sample.loaded = (Normal tt, s')
      /\ map label (datasets (chart s'))
         = map label (datasets (chart Sample.loaded))
      /\ map yAxisID (datasets (chart s'))
         = map yAxisID (datasets (chart Sample.loaded))
      /\ map data (datasets (chart s')) = [[]; []; []].
Proof.
  split; [reflexivity|]. split; [reflexivity|].
  apply (failed_pipeline_empties_datasets Sample.JSON_parse
           Sample.Date_toLocaleString ZoomCompleted Sample.unavailable
           Sample.loaded "db unavailable"); reflexivity.
Defined.

(** Scenario B: HTTP 500 with body "db unavailable". *)
Lemma non_200_reports_body_text_witness :
  answer Sample.unavailable = Response 500 "db unavailable"
  /\ 500%Z <> 200%Z
  /\ classify Sample.JSON_parse Sample.unavailable = Failure "db unavailable"
  /\ exists s',
      BuildChart.fetch_data Sample.JSON_parse Sample.Date_toLocaleString
        Sample.unavailable "/data/range/1h" Sample.loaded = (Normal [], s')
      /\ Dom.textContent (Dom.error_message (page s')) = "db unavailable"
      /\ Dom.hidden (Dom.error_message (page s')) = false
      /\ all_hidden "hide-until-loaded" (page s').
Proof.
  split; [reflexivity|]. split; [lia|].
  apply (non_200_reports_body_text Sample.JSON_parse
           Sample.Date_toLocaleString Sample.unavailable "/data/range/1h"
           Sample.loaded 500 "db unavailable");
    [reflexivity | lia | reflexivity | reflexivity].
Defined.

(** Scenario D: 550 ppm against the two sample bands. *)
Lemma band_lookup_applies_containing_band_witness :
  (exists b, In b Sample.co2_map /\ contains 550 b)
  /\ exists b before after s',
      Sample.co2_map = (before ++ b :: after)%list
      /\ (forall b', In b' before -> ~ contains 550 b')
      /\ contains 550 b
      /\ BuildChart.update_co2_box Sample.co2_map 550 Sample.loaded
         = (Normal tt, s')
      /\ Dom.textContent (Dom.co2_box (page s')) = description b
      /\ Dom.backgroundColor (Dom.co2_box (page s')) = color b
      /\ chart s' = chart Sample.loaded.
Proof.
  assert (H : exists b, In b Sample.co2_map /\ contains 550 b).
  { exists (Band 0 600 "Good" "green"). split; [left; reflexivity|].
    split; [discriminate | reflexivity]. }
  split; [exact H|].
  exact (band_lookup_applies_containing_band Sample.co2_map 550
           Sample.loaded H).
Defined.

(** 1500 ppm lies in neither sample band: the update does not return. *)
Lemma unmatched_level_faults :
  (forall b, In b Sample.co2_map -> ~ contains 1500 b)
  /\ ~ (exists s',
         BuildChart.update_co2_box Sample.co2_map 1500 Sample.loaded
         = (Normal tt, s'))
  /\ fst (BuildChart.update_co2_box Sample.co2_map 1500 Sample.loaded)
     = Throw (TypeError_undefined "description").
Proof.
  split; [|split].
  - intros b [<-|[<-|[]]] [_ H]; revert H; cbn; discriminate.
  - intros [s' H]. vm_compute in H. discriminate.
  - reflexivity.
Qed.

Lemma unmatched_level_applies_nothing_witness :
  (forall b, In b Sample.co2_map -> ~ contains 1500 b)
  /\ exists s',
      BuildChart.update_co2_box Sample.co2_map 1500 Sample.loaded
        = (Throw (TypeError_undefined "description"), s')
      /\ added Sample.loaded s'
           [ConsoleLog "current_co2 is fetched: " (LNumber 1500);
            ConsoleLog "current level: " (LBand None)]
      /\ page s' = page Sample.loaded
      /\ chart s' = chart Sample.loaded.
Proof.
  assert (H : forall b, In b Sample.co2_map -> ~ contains 1500 b).
  { intros b [<-|[<-|[]]] [_ H]; revert H; cbn; discriminate. }
  split; [exact H|].
  exact (unmatched_level_applies_nothing Sample.co2_map 1500 Sample.loaded H).
Defined.

(** At 10 degrees below zero and 50 percent relative humidity the inputs
    are the ones the property admits, and the derived value is negative. *)
Lemma absolute_humidity_negative_at_minus_ten :
  let data := Humidity.Reading undefined (-10) 50 in
  (Humidity.temperature data <> 0)%R
  /\ (Humidity.temperature data <> -257.14)%R
  /\ (0 <= Humidity.humidity data)%R
  /\ ~ (0 <= Humidity.p_value (Humidity.absolute_humidity data))%R.
Proof.
  intros data. subst data. cbn [Humidity.temperature Humidity.humidity].
  split; [lra|]. split; [lra|]. split; [lra|].
  pose proof (absolute_humidity_negative_below_zero
                (Humidity.Reading undefined (-10) 50)) as H.
  cbn [Humidity.temperature Humidity.humidity] in H.
  lra.
Qed.

Lemma absolute_humidity_nonnegative_above_zero_witness :
  (0 < 20)%R /\ (0 <= 50)%R
  /\ (0 <= Humidity.p_value
            (Humidity.absolute_humidity
               (Humidity.Reading undefined 20 50)))%R.
Proof.
  split; [lra|]. split; [lra|].
  apply (absolute_humidity_nonnegative_above_zero
           (Humidity.Reading undefined 20 50));
    cbn [Humidity.temperature Humidity.humidity]; lra.
Defined.

(** * Further properties of the script *)

Module MoreFacts.
Import Js Session BuildChart Spec Runs Facts.
#[local] Open Scope string_scope.

(** Evaluating the record updates of a settled page, innermost first. *)
Ltac settled_cbv :=
  cbv beta iota delta
    [all_hidden all_shown error_page loaded_page settled_page
     Dom.forEach_set_hidden Dom.elements Dom.map_document
     Dom.on_error_message Dom.on_load_time Dom.on_points_loaded
     Dom.on_start_date Dom.on_end_date Dom.on_co2_box
     Dom.ctx Dom.load_time Dom.points_loaded Dom.timespan Dom.error_message
     Dom.reset Dom.start_date Dom.end_date Dom.password Dom.co2_box
     Dom.others].

(** One element under the toggles and assignments of [fetch_data]: split on
    its two role classes and compute. *)
Ltac element_cases e :=
  destruct e as [classes h t v bg];
  unfold Dom.set_hidden_if, Dom.has_class in *;
  repeat
    (cbn [Dom.classList Dom.hidden Dom.textContent Dom.value
          Dom.backgroundColor Dom.set_hidden Dom.set_textContent
          Dom.set_backgroundColor] in *;
     match goal with
     | |- context [existsb ?f classes] => destruct (existsb f classes) eqn:?
     end);
  cbn [Dom.classList Dom.hidden Dom.textContent Dom.value
       Dom.backgroundColor Dom.set_hidden Dom.set_textContent
       Dom.set_backgroundColor] in *;
  try congruence; try reflexivity; auto.

Lemma classify_decoded
    (JSON_parse : string -> completion (list reading)) (w : exchange)
    (text : string) (body : list reading) :
  answer w = Response 200 text ->
  JSON_parse text = Normal body ->
  classify JSON_parse w = Success body.
Proof.
  intros Hanswer Hjson. unfold classify. rewrite Hanswer. cbn.
  rewrite Hjson. reflexivity.
Qed.

End MoreFacts.

Import Runs MoreFacts.

Section Displays.

Variable JSON_parse : string -> completion (list BuildChart.reading).
Variable Date_toLocaleString : value -> string.

(** X1.  A decoded 200 response with at least one reading: [fetch_data]
    returns the readings as they were decoded; the page shows the elapsed
    time between the two clock readings, the number of readings, and the
    localized times of the first and the last reading; every
    result-dependent element that is not also an in-flight element is
    shown; the text of the error display is left as it was. *)
Theorem loaded_result_is_displayed
    (w : exchange) (url : string) (s : state) (text : string)
    (body : list BuildChart.reading) (first final : BuildChart.reading)
    (Hanswer : answer w = Response 200 text)
    (Hjson : JSON_parse text = Normal body)
    (Hfirst : head body = Some first)
    (Hlast : last body = Some final) :
  exists s',
    BuildChart.fetch_data JSON_parse Date_toLocaleString w url s
      = (Normal body, s')
    /\ Dom.textContent (Dom.load_time (page s'))
       = Number_toString (decoded w - started w)
    /\ Dom.textContent (Dom.points_loaded (page s'))
       = Number_toString (Z.of_nat (length body))
    /\ Dom.textContent (Dom.start_date (page s'))
       = Date_toLocaleString (BuildChart.time first)
    /\ Dom.textContent (Dom.end_date (page s'))
       = Date_toLocaleString (BuildChart.time final)
    /\ all_shown "hide-until-loaded" "visible-until-loaded" (page s')
    /\ Dom.textContent (Dom.error_message (page s'))
       = Dom.textContent (Dom.error_message (page s)).
Proof.
  rewrite fetch_data_run, (classify_decoded _ _ _ _ Hanswer Hjson).
  eexists; split; [reflexivity|]. cbn [page readings_of].
  unfold settled_page, loaded_page. rewrite Hfirst, Hlast.
  destruct (page s) as [e0 e1 e2 e3 e4 e5 e6 e7 e8 e9 rest].
  settled_cbv.
  split; [element_cases e1|]. split; [element_cases e2|].
  split; [element_cases e6|]. split; [element_cases e7|].
  split; [|element_cases e4].
  constructor; [element_cases e0|]. constructor; [element_cases e1|].
  constructor; [element_cases e2|]. constructor; [element_cases e3|].
  constructor; [element_cases e4|]. constructor; [element_cases e5|].
  constructor; [element_cases e6|]. constructor; [element_cases e7|].
  constructor; [element_cases e8|]. constructor; [element_cases e9|].
  rewrite map_map. apply List.Forall_forall. intros e He.
  apply in_map_iff in He. destruct He as [e' [<- _]]. element_cases e'.
Qed.

(** X2.  A decoded 200 response with no reading: [fetch_data] returns the
    empty array, the count shown is 0, and the two date displays are
    hidden, whatever their classes; their text is not cleared. *)
Theorem empty_result_hides_dates
    (w : exchange) (url : string) (s : state) (text : string)
    (Hanswer : answer w = Response 200 text)
    (Hjson : JSON_parse text = Normal []) :
  exists s',
    BuildChart.fetch_data JSON_parse Date_toLocaleString w url s
      = (Normal [], s')
    /\ Dom.textContent (Dom.points_loaded (page s')) = "0"
    /\ Dom.hidden (Dom.start_date (page s')) = true
    /\ Dom.hidden (Dom.end_date (page s')) = true
    /\ Dom.textContent (Dom.start_date (page s'))
       = Dom.textContent (Dom.start_date (page s))
    /\ Dom.textContent (Dom.end_date (page s'))
       = Dom.textContent (Dom.end_date (page s)).
Proof.
  rewrite fetch_data_run, (classify_decoded _ _ _ _ Hanswer Hjson).
  eexists; split; [reflexivity|]. cbn [page readings_of].
  unfold settled_page, loaded_page. cbn [head last length].
  destruct (page s) as [e0 e1 e2 e3 e4 e5 e6 e7 e8 e9 rest].
  settled_cbv.
  split; [element_cases e2|].
  split; [element_cases e6|]. split; [element_cases e7|].
  split; [element_cases e6|element_cases e7].
Qed.

(** X3.  [fetch_data] never shows the date displays itself: it leaves them
    to the class-wide toggle.  A date display that is hidden and does not
    carry the class [hide-until-loaded] is still hidden after the call,
    whatever the exchange was; so once an empty result has hidden them, a
    later result with readings does not bring them back. *)
Theorem hidden_dates_stay_hidden
    (w : exchange) (url : string) (s : state)
    (Hstart : Dom.hidden (Dom.start_date (page s)) = true)
    (Hstart' : Dom.has_class "hide-until-loaded" (Dom.start_date (page s))
               = false)
    (Hend : Dom.hidden (Dom.end_date (page s)) = true)
    (Hend' : Dom.has_class "hide-until-loaded" (Dom.end_date (page s))
             = false) :
  exists body s',
    BuildChart.fetch_data JSON_parse Date_toLocaleString w url s
      = (Normal body, s')
    /\ Dom.hidden (Dom.start_date (page s')) = true
    /\ Dom.hidden (Dom.end_date (page s')) = true.
Proof.
  rewrite fetch_data_run.
  eexists _, _; split; [reflexivity|]. cbn [page].
  destruct (page s) as [e0 e1 e2 e3 e4 e5 e6 e7 e8 e9 rest].
  cbn [Dom.start_date Dom.end_date] in Hstart, Hstart', Hend, Hend'.
  destruct (classify JSON_parse w) as [body | message].
  - unfold settled_page, loaded_page.
    destruct (head body); destruct (last body); settled_cbv;
      (split; [element_cases e6|element_cases e7]).
  - settled_cbv. split; [element_cases e6|element_cases e7].
Qed.

(** X4.  Every failure is reported the same way, a thrown error like a
    response whose status is not 200: [fetch_data] returns the empty array,
    the error display shows the failure's message (for a rejected request,
    the error's own description) and is visible, every result-dependent
    element is hidden, and no other text of the page changes, so the
    figures and dates of an earlier result are kept, not cleared.  The page
    is assumed to keep the error display out of the two toggled classes. *)
Theorem every_failure_is_reported
    (w : exchange) (url : string) (s : state) (message : string)
    (Hfail : classify JSON_parse w = Failure message)
    (Hrole : Dom.has_class "hide-until-loaded"
               (Dom.error_message (page s)) = false)
    (Hrole' : Dom.has_class "visible-until-loaded"
                (Dom.error_message (page s)) = false) :
  (forall e, answer w = Rejected e -> message = String_error e)
  /\ exists s',
      BuildChart.fetch_data JSON_parse Date_toLocaleString w url s
        = (Normal [], s')
      /\ Dom.textContent (Dom.error_message (page s')) = message
      /\ Dom.hidden (Dom.error_message (page s')) = false
      /\ all_hidden "hide-until-loaded" (page s')
      /\ Dom.textContent (Dom.load_time (page s'))
         = Dom.textContent (Dom.load_time (page s))
      /\ Dom.textContent (Dom.points_loaded (page s'))
         = Dom.textContent (Dom.points_loaded (page s))
      /\ Dom.textContent (Dom.start_date (page s'))
         = Dom.textContent (Dom.start_date (page s))
      /\ Dom.textContent (Dom.end_date (page s'))
         = Dom.textContent (Dom.end_date (page s)).
Proof.
  split.
  { intros e He. unfold classify in Hfail. rewrite He in Hfail.
    congruence. }
  rewrite fetch_data_run, Hfail.
  eexists; split; [reflexivity|]. cbn [page readings_of].
  split; [|split; [|split; [apply all_hidden_error_page, Hrole|]]];
    destruct (page s) as [e0 e1 e2 e3 e4 e5 e6 e7 e8 e9 rest];
    cbn [Dom.error_message] in Hrole, Hrole'; settled_cbv.
  - element_cases e4.
  - element_cases e4.
  - split; [element_cases e1|]. split; [element_cases e2|].
    split; [element_cases e6|element_cases e7].
Qed.

(** X5.  Every trigger issues exactly one request, failed or not (there is
    no retry), to the preset URL built from the value of the range selector
    for a full reload and to the explicit-range URL of the rounded viewport
    for a refresh; the request always carries the header
    ["Bearer " + password.value], an empty password included; and the chart
    is redrawn exactly once, without animation. *)
Theorem one_request_one_redraw
    (t : trigger) (w : exchange) (s : state) :
  exists s' new,
    handler JSON_parse Date_toLocaleString t w s = (Normal tt, s')
    /\ added s s' new
    /\ List.filter is_request new
       = [Fetch
            (if full_reload t
             then "/data/range/" ++ Dom.value (Dom.timespan (page s))
             else "/data/from/"
                  ++ Number_toString (Math_round (xAxis_min (chart s)))
                  ++ "/to/"
                  ++ Number_toString (Math_round (xAxis_max (chart s))))
            ("Bearer " ++ Dom.value (Dom.password (page s)))]
    /\ List.filter is_redraw new = [ChartUpdate "none"].
Proof.
  rewrite handler_run.
  eexists _, _. split; [reflexivity|]. split; [reflexivity|].
  destruct t; split; reflexivity.
Qed.

End Displays.

(** ** Sessions of several user actions *)

Module RunFacts.
Import Js Session BuildChart Spec Runs Facts.
#[local] Open Scope string_scope.

Lemma reconciled_slots (data : series) (ds : list dataset) :
  slots ds -> reconciled data ds = three data.
Proof.
  intros [-> | [data0 ->]]; reflexivity.
Qed.

Lemma truthy_co2_points (body : list reading) :
  Forall (fun p => truthy (y p) = true)
         (plotted (co2_points (derived body))).
Proof.
  unfold plotted, derived. cbn [co2_points].
  induction body as [|r body IH]; [constructor|].
  cbn [List.filter]. destruct (truthy (co2 r)) eqn:Hr; [|exact IH].
  cbn [map]. constructor; [exact Hr|exact IH].
Qed.

Section Runs.

Variable JSON_parse : string -> completion (list reading).
Variable Date_toLocaleString : value -> string.

Lemma handler_datasets (t : trigger) (w : exchange) (s : state) :
  datasets (chart (snd (handler JSON_parse Date_toLocaleString t w s)))
  = reconciled (derived (readings_of (classify JSON_parse w)))
               (datasets (chart s)).
Proof.
  rewrite handler_run. reflexivity.
Qed.

Lemma run_all_slots (steps : list (trigger * exchange)) (s : state) :
  slots (datasets (chart s)) ->
  slots (datasets (chart (run_all JSON_parse Date_toLocaleString steps s))).
Proof.
  revert s. induction steps as [|[t w] steps IH]; intros s Hs; [exact Hs|].
  cbn [run_all fold_left fst snd]. apply IH.
  rewrite handler_datasets, (reconciled_slots _ _ Hs).
  right. eexists. reflexivity.
Qed.

(** After a run that ends with the exchange [w], a chart that started
    without datasets holds the three datasets of [w]'s readings. *)
Lemma run_all_last (steps : list (trigger * exchange)) (t : trigger)
    (w : exchange) (s : state) :
  datasets (chart s) = [] ->
  datasets (chart (run_all JSON_parse Date_toLocaleString
                     (steps ++ [(t, w)]) s))
  = three (derived (readings_of (classify JSON_parse w))).
Proof.
  intros Hs. unfold run_all. rewrite fold_left_app. cbn [fold_left fst snd].
  rewrite handler_datasets. apply reconciled_slots.
  apply (run_all_slots steps s). left. exact Hs.
Qed.

End Runs.

End RunFacts.

Import RunFacts.

Section Sessions.

Variable JSON_parse : string -> completion (list BuildChart.reading).
Variable Date_toLocaleString : value -> string.


(** X8.  Whatever the service answers, the chart never plots a CO2 point
    whose value is falsy (absent, null, 0, empty): after a handler has run
    on a chart without datasets or with its three datasets, each point of
    the CO2 dataset has a truthy value, while the temperature and humidity
    datasets have one point per reading returned. *)
Theorem plotted_co2_is_truthy
    (t : trigger) (w : exchange) (s : state)
    (Hslots : datasets (chart s) = []
              \/ length (datasets (chart s)) = 3%nat) :
  exists s' d0 d1 d2,
    handler JSON_parse Date_toLocaleString t w s = (Normal tt, s')
    /\ datasets (chart s') = [d0; d1; d2]
    /\ Forall (fun p => truthy (y p) = true) (data d2)
    /\ length (data d0) = length (readings_of (classify JSON_parse w))
    /\ length (data d1) = length (readings_of (classify JSON_parse w))
    /\ (length (data d2) <= length (readings_of (classify JSON_parse w)))%nat.
Proof.
  rewrite handler_run.
  set (body := readings_of (classify JSON_parse w)).
  assert (Hco2 : (length (plotted (BuildChart.co2_points (derived body)))
                  <= length body)%nat).
  { unfold plotted. rewrite length_map.
    destruct (derived_series body) as (_ & _ & _ & _ & _ & H). exact H. }
  assert (Hlen : length (plotted (BuildChart.temp (derived body)))
                 = length body
                 /\ length (plotted (BuildChart.humid (derived body)))
                    = length body).
  { unfold plotted, derived. cbn [BuildChart.temp BuildChart.humid].
    rewrite !length_map. split; reflexivity. }
  destruct Hslots as [Hs | Hs].
  - eexists _, _, _, _. split; [reflexivity|]. cbn [chart datasets].
    rewrite Hs. cbn [reconciled app]. split; [reflexivity|].
    cbn [data]. split; [apply truthy_co2_points|].
    split; [apply Hlen|]. split; [apply Hlen|exact Hco2].
  - destruct (three_datasets _ Hs) as (a & b & c & Hds).
    eexists _, _, _, _. split; [reflexivity|]. cbn [chart datasets].
    rewrite Hds. cbn [reconciled]. split; [reflexivity|].
    cbn [data set_data]. split; [apply truthy_co2_points|].
    split; [apply Hlen|]. split; [apply Hlen|exact Hco2].
Qed.

End Sessions.

(** ** Requests in flight at the same time *)

Module SuspendedFacts.
Import Js Session BuildChart Spec Runs Facts Suspended.
#[local] Open Scope string_scope.

Section Cut.

Variable JSON_parse : string -> completion (list reading).
Variable Date_toLocaleString : value -> string.

Lemma fetch_data_request_run (url : string) (s : state) :
  fetch_data_request url s
  = (Normal tt, emit (Fetch url (authorization s)) s).
Proof. reflexivity. Qed.

Lemma fetch_data_resume_run (w : exchange) (s : state) :
  fetch_data_resume JSON_parse Date_toLocaleString w s =
    (Normal (readings_of (classify JSON_parse w)),
     State (settled_page Date_toLocaleString w (classify JSON_parse w)
              (page s))
           (chart s)
           (trace s ++ [ForEachHidden "hide-until-loaded"
                          (is_failure (classify JSON_parse w));
                        ForEachHidden "visible-until-loaded" true])).
Proof.
  unfold classify, settled_page, fetch_data_resume, try_catch_finally,
    report_error, error_page, loaded_page.
  destruct s as [pg ch tr]. run.
  destruct (answer w) as [status text | e]; cbn.
  - destruct (status =? 200)%Z; cbn.
    + destruct (JSON_parse text) as [body | e]; cbn.
      * destruct body as [|r body]; cbn.
        -- rewrite <- !app_assoc. reflexivity.
        -- rewrite Nat.sub_0_r.
           replace (list.last (r :: body)) with ((r :: body) !! length body)
             by (rewrite last_lookup; reflexivity).
           destruct (lookup_lt_is_Some_2 (r :: body) (length body))
             as [r1 Hr1]; [cbn; lia|].
           rewrite Hr1. cbn. rewrite <- !app_assoc. reflexivity.
      * rewrite <- !app_assoc. reflexivity.
    + rewrite <- !app_assoc. reflexivity.
  - rewrite <- !app_assoc. reflexivity.
Qed.

Lemma request_run (t : trigger) (s : state) :
  request t s
  = (Normal tt, emit (Fetch (requested_url t s) (authorization s)) s).
Proof.
  destruct t; reflexivity.
Qed.

Lemma resume_run (t : trigger) (w : exchange) (s : state) :
  resume JSON_parse Date_toLocaleString t w s =
    (Normal tt,
     State (settled_page Date_toLocaleString w (classify JSON_parse w)
              (page s))
           (Chart (reconciled (derived (readings_of (classify JSON_parse w)))
                     (datasets (chart s)))
                  (xAxis_min (chart s)) (xAxis_max (chart s)))
           (trace s
            ++ [ForEachHidden "hide-until-loaded"
                  (is_failure (classify JSON_parse w));
                ForEachHidden "visible-until-loaded" true;
                ChartUpdate "none"]
            ++ (if full_reload t then [ChartResetZoom] else []))).
Proof.
  unfold resume. unfold bind at 1. rewrite fetch_data_resume_run.
  unfold bind. rewrite update_chart_run.
  destruct (full_reload t); unfold chart_resetZoom, modify, emit, ret;
    cbn; rewrite <- !app_assoc; reflexivity.
Qed.

End Cut.

End SuspendedFacts.

Import Suspended SuspendedFacts.

Section InFlight.

Variable JSON_parse : string -> completion (list BuildChart.reading).
Variable Date_toLocaleString : value -> string.

(** X9.  Cutting a handler at its awaited request loses nothing: run to
    the request and then from the settled request on, with nothing in
    between, it is the handler.  With something in between it is not
    guarded: when a second action is taken while the request of a first is
    in flight, both requests leave, in the order of the actions, and the
    chart ends with the data of whichever answer settles last, the answer
    to the first action if that one settles after the answer to the
    second. *)
Theorem last_settled_answer_wins
    (first second : trigger) (w1 w2 : exchange) (s : state)
    (Hslots : datasets (chart s) = []
              \/ length (datasets (chart s)) = 3%nat) :
  let requested := snd (request second (snd (request first s))) in
  let in_order :=
    snd (resume JSON_parse Date_toLocaleString second w2
           (snd (resume JSON_parse Date_toLocaleString first w1
                   requested))) in
  let overtaken :=
    snd (resume JSON_parse Date_toLocaleString first w1
           (snd (resume JSON_parse Date_toLocaleString second w2
                   requested))) in
  let plotted_of w :=
    let series := derived (readings_of (classify JSON_parse w)) in
    [plotted (BuildChart.temp series); plotted (BuildChart.humid series);
     plotted (BuildChart.co2_points series)] in
  handler JSON_parse Date_toLocaleString first w1 s
  = resume JSON_parse Date_toLocaleString first w1 (snd (request first s))
  /\ List.filter is_request (trace requested)
     = (List.filter is_request (trace s)
        ++ [Fetch (requested_url first s) (authorization s);
            Fetch (requested_url second s) (authorization s)])%list
  /\ map data (datasets (chart in_order)) = plotted_of w2
  /\ map data (datasets (chart overtaken)) = plotted_of w1.
Proof.
  intros requested in_order overtaken plotted_of.
  subst requested in_order overtaken plotted_of.
  rewrite !request_run, !resume_run, handler_run. cbn [snd].
  split; [|split; [|split]].
  - unfold emit. cbn [page chart trace]. rewrite <- !app_assoc. reflexivity.
  - unfold emit, requested_url, authorization. cbn [page chart trace].
    rewrite !List.filter_app. cbn [List.filter is_request].
    rewrite <- !app_assoc. reflexivity.
  - cbn [chart datasets emit]. destruct Hslots as [Hs | Hs].
    + rewrite Hs. reflexivity.
    + destruct (three_datasets _ Hs) as (a & b & c & ->). reflexivity.
  - cbn [chart datasets emit]. destruct Hslots as [Hs | Hs].
    + rewrite Hs. reflexivity.
    + destruct (three_datasets _ Hs) as (a & b & c & ->). reflexivity.
Qed.

End InFlight.

(** ** Sessions with requests in flight *)

Module ScheduleFacts.
Import Js Session BuildChart Spec Runs Facts Suspended SuspendedFacts
  RunFacts.
#[local] Open Scope string_scope.

Section Schedules.

Variable JSON_parse : string -> completion (list reading).
Variable Date_toLocaleString : value -> string.

Lemma fired_datasets (t : trigger) (s : state) :
  datasets (chart (occur JSON_parse Date_toLocaleString s (Fired t)))
  = datasets (chart s).
Proof.
  cbn [occur]. rewrite request_run. reflexivity.
Qed.

Lemma settled_datasets (t : trigger) (w : exchange) (s : state) :
  datasets (chart (occur JSON_parse Date_toLocaleString s (Settled t w)))
  = reconciled (derived (readings_of (classify JSON_parse w)))
               (datasets (chart s)).
Proof.
  cbn [occur]. rewrite resume_run. reflexivity.
Qed.

Lemma schedule_slots (schedule : list occurrence) (s : state) :
  slots (datasets (chart s)) ->
  slots (datasets (chart (run_schedule JSON_parse Date_toLocaleString
                            schedule s))).
Proof.
  revert s. induction schedule as [|[t | t w] schedule IH]; intros s Hs;
    [exact Hs| |]; cbn [run_schedule fold_left]; apply IH.
  - rewrite fired_datasets. exact Hs.
  - rewrite settled_datasets, (reconciled_slots _ _ Hs).
    right. eexists. reflexivity.
Qed.

Lemma pending_datasets (pending : list trigger) (s : state) :
  datasets (chart (run_schedule JSON_parse Date_toLocaleString
                     (map Fired pending) s))
  = datasets (chart s).
Proof.
  revert s. induction pending as [|t pending IH]; intros s; [reflexivity|].
  cbn [map run_schedule fold_left]. unfold run_schedule in IH.
  rewrite IH. apply fired_datasets.
Qed.

(** A handler that is not interrupted is its two parts, one after the
    other. *)
Lemma handler_cut (t : trigger) (w : exchange) (s : state) :
  snd (handler JSON_parse Date_toLocaleString t w s)
  = occur JSON_parse Date_toLocaleString
      (occur JSON_parse Date_toLocaleString s (Fired t)) (Settled t w).
Proof.
  cbn [occur]. rewrite request_run, resume_run, handler_run. cbn [snd].
  unfold emit. cbn [page chart trace]. rewrite <- !app_assoc. reflexivity.
Qed.

Lemma run_all_in_turn (steps : list (trigger * exchange)) (s : state) :
  run_all JSON_parse Date_toLocaleString steps s
  = run_schedule JSON_parse Date_toLocaleString (in_turn steps) s.
Proof.
  revert s. induction steps as [|[t w] steps IH]; intros s; [reflexivity|].
  cbn [run_all in_turn flat_map app run_schedule fold_left fst snd].
  rewrite handler_cut. apply IH.
Qed.

End Schedules.

End ScheduleFacts.

Import ScheduleFacts.

Section Schedules.

Variable JSON_parse : string -> completion (list BuildChart.reading).
Variable Date_toLocaleString : value -> string.

(** X6.  The chart is created without datasets.  Whatever happens in a
    session, user actions (preset, credential, reset, zoom, pan) and
    settling requests in any order, with any number of requests in flight
    and any answers of the service: once a request has settled, the chart
    holds exactly three datasets, temperature on [y], humidity on [y1] and
    CO2 on [y2], in this order, and their points are the ones derived from
    the answer that settled last, alone: every series is regenerated
    wholesale, nothing of an earlier answer is kept or merged, and actions
    whose requests are still in flight change nothing.  A session in which
    every request settles before the next action is one such schedule, and
    there the answer that settled last is the answer to the last action. *)
Theorem chart_shows_the_last_answer
    (before : list occurrence) (t : trigger) (w : exchange)
    (pending : list trigger) (s : state)
    (Hcreated : datasets (chart s) = []) :
  let readings := readings_of (classify JSON_parse w) in
  let shown :=
    [Dataset "Temperature (C)"
       (map (fun d => XY (BuildChart.time d) (BuildChart.temperature d))
            readings) "y";
     Dataset "Humidity (%H)"
       (map (fun d => XY (BuildChart.time d) (BuildChart.humidity d))
            readings) "y1";
     Dataset "Co2 (ppm)"
       (map (fun d => XY (BuildChart.time d) (BuildChart.co2 d))
            (List.filter (fun d => truthy (BuildChart.co2 d)) readings))
       "y2"] in
  datasets (chart (run_schedule JSON_parse Date_toLocaleString
                     (before ++ Settled t w :: map Fired pending) s))
  = shown
  /\ (forall (steps : list (trigger * exchange)) (s0 : state),
         run_all JSON_parse Date_toLocaleString steps s0
         = run_schedule JSON_parse Date_toLocaleString (in_turn steps) s0)
  /\ (forall steps : list (trigger * exchange),
         datasets (chart (run_all JSON_parse Date_toLocaleString
                            (steps ++ [(t, w)]) s))
         = shown).
Proof.
  intros readings shown.
  assert (Hshown : three (derived readings) = shown).
  { subst shown. unfold three, plotted, derived.
    cbn [BuildChart.temp BuildChart.humid BuildChart.co2_points].
    rewrite !map_map. reflexivity. }
  split; [|split].
  - pose proof (pending_datasets JSON_parse Date_toLocaleString pending)
      as Hpending.
    pose proof (schedule_slots JSON_parse Date_toLocaleString before s
                  (or_introl Hcreated)) as Hbefore.
    unfold run_schedule in *. rewrite fold_left_app. cbn [fold_left].
    rewrite Hpending, settled_datasets.
    rewrite <- Hshown. apply reconciled_slots. exact Hbefore.
  - apply run_all_in_turn.
  - intros steps. rewrite <- Hshown.
    apply (run_all_last _ _ steps t w s Hcreated).
Qed.

End Schedules.

(** ** The explicit-range query *)

Module QueryFacts.
Import Js Session Spec Runs.
#[local] Open Scope string_scope.

Lemma digits_have_no_slash (d : Decimal.uint) :
  has_slash (NilEmpty.string_of_uint d) = false.
Proof.
  induction d; cbn; assumption || reflexivity.
Qed.

Lemma Number_toString_has_no_slash (n : Z) :
  has_slash (Number_toString n) = false.
Proof.
  unfold Number_toString.
  destruct (Z.to_int n) as [d | d]; cbn [NilZero.string_of_int has_slash];
    destruct d; try apply digits_have_no_slash; reflexivity.
Qed.

(** Reading a decimal string back gives an integer of the same value. *)
Lemma string_of_int_value (d d' : Decimal.int) :
  NilZero.string_of_int d = NilZero.string_of_int d' ->
  Z.of_int d = Z.of_int d'.
Proof.
  assert (H : forall i,
             exists j, NilZero.int_of_string (NilZero.string_of_int i) = Some j
                       /\ Z.of_int j = Z.of_int i).
  { intros [u | u]; destruct u;
      try (eexists; split; [apply NilZero.isi; discriminate|reflexivity]).
    - exists (Decimal.Pos Decimal.zero). split; reflexivity.
    - exists (Decimal.Neg Decimal.zero). split; reflexivity. }
  intros E. destruct (H d) as (j & Hj & <-). destruct (H d') as (j' & Hj' & <-).
  rewrite E in Hj. congruence.
Qed.

Lemma Number_toString_inj (n n' : Z) :
  Number_toString n = Number_toString n' -> n = n'.
Proof.
  unfold Number_toString. intros E. apply string_of_int_value in E.
  rewrite !DecimalZ.of_to in E. exact E.
Qed.

(** A string without [/] ends where the first [/] is. *)
Lemma split_at_slash (a a' r r' : string) :
  has_slash a = false -> has_slash a' = false ->
  a ++ String "/"%char r = a' ++ String "/"%char r' -> a = a' /\ r = r'.
Proof.
  revert a'. induction a as [|c a IH]; intros [|c' a'] Ha Ha' E; cbn in *.
  - injection E as ->. split; reflexivity.
  - injection E as <- _. cbn in Ha'. discriminate.
  - injection E as -> _. cbn in Ha. discriminate.
  - injection E as -> E.
    apply orb_false_iff in Ha as [_ Ha]. apply orb_false_iff in Ha' as [_ Ha'].
    destruct (IH a' Ha Ha' E) as [-> ->]. split; reflexivity.
Qed.

Lemma Math_round_nearest (x : Q) :
  (inject_Z (Math_round x) - (1 # 2) <= x)%Q
  /\ (x < inject_Z (Math_round x) + (1 # 2))%Q.
Proof.
  unfold Math_round.
  pose proof (Qfloor_le (x + (1 # 2))) as Hle.
  pose proof (Qlt_floor (x + (1 # 2))) as Hlt.
  rewrite inject_Z_plus in Hlt.
  split.
  - apply Qplus_le_l with (z := 1 # 2). ring_simplify.
    ring_simplify in Hle. exact Hle.
  - apply Qplus_lt_l with (z := 1 # 2).
    eapply Qlt_le_trans; [exact Hlt|].
    ring_simplify. apply Qle_refl.
Qed.

End QueryFacts.

Import QueryFacts.

(** X10.  The bounds of the explicit range stay in order and close to the
    viewport: when the lower viewport bound is not above the upper one, the
    rounded lower bound is not above the rounded upper one, and each
    rounded bound is the integer within half a millisecond of the viewport
    bound, the upper one of the two when it lies halfway. *)
Theorem rounded_viewport_stays_ordered (lo hi : Q) (Horder : (lo <= hi)%Q) :
  (Math_round lo <= Math_round hi)%Z
  /\ (inject_Z (Math_round lo) - (1 # 2) <= lo)%Q
  /\ (lo < inject_Z (Math_round lo) + (1 # 2))%Q
  /\ (inject_Z (Math_round hi) - (1 # 2) <= hi)%Q
  /\ (hi < inject_Z (Math_round hi) + (1 # 2))%Q.
Proof.
  split.
  - unfold Math_round. apply Qfloor_resp_le.
    apply Qplus_le_l. exact Horder.
  - destruct (Math_round_nearest lo). destruct (Math_round_nearest hi).
    repeat split; assumption.
Qed.

(** X11.  The explicit-range URL determines the rounded range: two
    viewports are sent to the same URL exactly when their bounds round to
    the same integers. *)
Theorem explicit_range_url_determines_range (lo hi lo' hi' : Q) :
  explicit_range_url lo hi = explicit_range_url lo' hi'
  <-> Math_round lo = Math_round lo' /\ Math_round hi = Math_round hi'.
Proof.
  split.
  - unfold explicit_range_url. intros E.
    cbn [String.append] in E.
    injection E as E.
    apply split_at_slash in E; try apply Number_toString_has_no_slash.
    destruct E as [Elo E]. injection E as E.
    split; apply Number_toString_inj; assumption.
  - intros [Elo Ehi]. unfold explicit_range_url. rewrite Elo, Ehi.
    reflexivity.
Qed.

(** ** The earlier reconcilers *)

Module SnapshotFacts.
Import Js Session Spec Runs Facts.
#[local] Open Scope string_scope.

(** The points the first snapshot's chart is given. *)
Lemma snapshot1_insert (data : Snapshot1.converted) (s : state) :
  datasets (chart s) = [] ->
  Snapshot1.update_chart data s =
    (Normal tt,
     State (page s)
           (Chart [Dataset "Temperature (C)"
                     (map (fun d => XY (Snapshot1.p_time d)
                                       (Snapshot1.p_value d))
                          (Snapshot1.temp data)) "y";
                   Dataset "Humidity (%H)"
                     (map (fun d => XY (Snapshot1.p_time d)
                                       (Snapshot1.p_value d))
                          (Snapshot1.humid data)) "y1"]
                  (xAxis_min (chart s)) (xAxis_max (chart s)))
           (trace s ++ [ChartUpdate "none"])).
Proof.
  destruct s as [pg [ds lo hi] tr]. cbn [chart datasets]. intros ->.
  reflexivity.
Qed.

Lemma snapshot1_replace (data : Snapshot1.converted) (s : state)
    (d0 d1 : dataset) (rest : list dataset) :
  datasets (chart s) = d0 :: d1 :: rest ->
  Snapshot1.update_chart data s =
    (Normal tt,
     State (page s)
           (Chart (set_data (map (fun d => XY (Snapshot1.p_time d)
                                              (Snapshot1.p_value d))
                                 (Snapshot1.temp data)) d0
                   :: set_data (map (fun d => XY (Snapshot1.p_time d)
                                                 (Snapshot1.p_value d))
                                    (Snapshot1.humid data)) d1
                   :: rest)
                  (xAxis_min (chart s)) (xAxis_max (chart s)))
           (trace s ++ [ChartUpdate "none"])).
Proof.
  destruct s as [pg [ds lo hi] tr]. cbn [chart datasets]. intros ->.
  reflexivity.
Qed.

End SnapshotFacts.

Import SnapshotFacts.

(** X12.  The first snapshot's chart is created without datasets.  Any
    sequence of updates that is not empty runs to its end without a throw
    and leaves exactly two datasets, temperature on [y] and humidity on
    [y1], holding the points of the last update; the absolute-humidity
    series, which every update is given, is never plotted. *)
Theorem first_snapshot_plots_two_series
    (updates : list Snapshot1.converted) (final : Snapshot1.converted)
    (s : state) (Hcreated : datasets (chart s) = []) :
  exists s',
    update_all (updates ++ [final]) s = (Normal tt, s')
    /\ datasets (chart s')
       = [Dataset "Temperature (C)"
            (map (fun d => XY (Snapshot1.p_time d) (Snapshot1.p_value d))
                 (Snapshot1.temp final)) "y";
          Dataset "Humidity (%H)"
            (map (fun d => XY (Snapshot1.p_time d) (Snapshot1.p_value d))
                 (Snapshot1.humid final)) "y1"]
    /\ length (List.filter is_redraw (trace s'))
       = (length (List.filter is_redraw (trace s)) + length updates + 1)%nat.
Proof.
  assert (Hgen : forall (us : list Snapshot1.converted) (s : state),
             (datasets (chart s) = []
              \/ exists d0 d1,
                  datasets (chart s) = [d0; d1]
                  /\ label d0 = "Temperature (C)" /\ yAxisID d0 = "y"
                  /\ label d1 = "Humidity (%H)" /\ yAxisID d1 = "y1") ->
             exists s',
               update_all (us ++ [final]) s = (Normal tt, s')
               /\ datasets (chart s')
                  = [Dataset "Temperature (C)"
                       (map (fun d => XY (Snapshot1.p_time d)
                                         (Snapshot1.p_value d))
                            (Snapshot1.temp final)) "y";
                     Dataset "Humidity (%H)"
                       (map (fun d => XY (Snapshot1.p_time d)
                                         (Snapshot1.p_value d))
                            (Snapshot1.humid final)) "y1"]
               /\ length (List.filter is_redraw (trace s'))
                  = (length (List.filter is_redraw (trace s))
                     + length us + 1)%nat).
  { clear s Hcreated updates.
    induction us as [|data us IH]; intros s Hs.
    - cbn [app update_all length]. unfold bind.
      destruct Hs as [Hs | (d0 & d1 & Hs & L0 & A0 & L1 & A1)].
      + rewrite (snapshot1_insert final s Hs). eexists.
        split; [reflexivity|]. split; [reflexivity|].
        cbn [trace]. rewrite List.filter_app, length_app. cbn. lia.
      + rewrite (snapshot1_replace final s d0 d1 [] Hs). eexists.
        split; [reflexivity|]. cbn [chart datasets trace].
        split.
        * unfold set_data. rewrite L0, A0, L1, A1. reflexivity.
        * rewrite List.filter_app, length_app. cbn. lia.
    - cbn [app update_all length]. unfold bind at 1.
      destruct Hs as [Hs | (d0 & d1 & Hs & L0 & A0 & L1 & A1)].
      + rewrite (snapshot1_insert data s Hs).
        match goal with
        | |- context [update_all _ ?s1] =>
            destruct (IH s1) as [s' [Hrun [Hds Hlen]]];
              [|exists s'; split; [exact Hrun|split; [exact Hds|]]]
        end.
        * right. eexists _, _. cbn [chart datasets].
          split; [reflexivity|]. repeat split.
        * rewrite Hlen. cbn [trace].
          rewrite List.filter_app, length_app. cbn. lia.
      + rewrite (snapshot1_replace data s d0 d1 [] Hs).
        match goal with
        | |- context [update_all _ ?s1] =>
            destruct (IH s1) as [s' [Hrun [Hds Hlen]]];
              [|exists s'; split; [exact Hrun|split; [exact Hds|]]]
        end.
        * right. eexists _, _. cbn [chart datasets].
          split; [reflexivity|]. unfold set_data. cbn. repeat split; assumption.
        * rewrite Hlen. cbn [trace].
          rewrite List.filter_app, length_app. cbn. lia. }
  apply Hgen. left. exact Hcreated.
Qed.

(** X13.  The first snapshot's reconciler tests for an empty dataset list
    only.  On a list of exactly one dataset it replaces that dataset's
    points by the temperature points and then throws a [TypeError] at the
    assignment to the second dataset, which is not there: the humidity
    points are dropped and the chart is not redrawn.  On a list of more
    than two datasets it replaces the points of the first two and leaves
    the others as they are. *)
Theorem first_snapshot_single_dataset_faults
    (data : Snapshot1.converted) (s : state) (d0 : dataset)
    (Hone : datasets (chart s) = [d0]) :
  Snapshot1.update_chart data s
  = (Throw (TypeError_undefined_set "data"),
     State (page s)
           (Chart [set_data (map (fun d => XY (Snapshot1.p_time d)
                                              (Snapshot1.p_value d))
                                 (Snapshot1.temp data)) d0]
                  (xAxis_min (chart s)) (xAxis_max (chart s)))
           (trace s))
  /\ forall (s2 : state) (a b c : dataset) (rest : list dataset),
      datasets (chart s2) = a :: b :: c :: rest ->
      Snapshot1.update_chart data s2
      = (Normal tt,
         State (page s2)
               (Chart (Dataset (label a)
                         (map (fun d => XY (Snapshot1.p_time d)
                                           (Snapshot1.p_value d))
                              (Snapshot1.temp data))
                         (yAxisID a)
                       :: Dataset (label b)
                            (map (fun d => XY (Snapshot1.p_time d)
                                              (Snapshot1.p_value d))
                                 (Snapshot1.humid data))
                            (yAxisID b)
                       :: c :: rest)
                      (xAxis_min (chart s2)) (xAxis_max (chart s2)))
               (trace s2 ++ [ChartUpdate "none"])).
Proof.
  split.
  - destruct s as [pg [ds lo hi] tr]. cbn [chart datasets] in Hone.
    subst ds. reflexivity.
  - intros s2 a b c rest Hds.
    rewrite (snapshot1_replace data s2 a b (c :: rest) Hds). reflexivity.
Qed.

(** X17.  The fourth snapshot's reconciler removes the last two datasets
    and appends a temperature and a humidity dataset, made anew on every
    call.  On a chart of at most two datasets, the single placeholder the
    chart is created with or the two datasets of an earlier update, it
    returns normally and leaves exactly these two datasets, redrawing once
    without animation; datasets before the last two are kept. *)
Theorem fourth_snapshot_recreates_its_datasets
    (data : Snapshot4.fetched) (s : state)
    (Hfew : (length (datasets (chart s)) <= 2)%nat) :
  Snapshot4.update_chart data s
  = (Normal tt,
     State (page s)
           (Chart [Dataset "Temperature (C)"
                     (map (fun d => XY (Snapshot4.p_time d)
                                       (Snapshot4.p_value d))
                          (Snapshot4.temp data)) "y";
                   Dataset "Humidity (%H)"
                     (map (fun d => XY (Snapshot4.p_time d)
                                       (Snapshot4.p_value d))
                          (Snapshot4.humid data)) "y1"]
                  (xAxis_min (chart s)) (xAxis_max (chart s)))
           (trace s ++ [ChartUpdate "none"]))
  /\ forall (s2 : state) (kept : list dataset) (a b : dataset),
      datasets (chart s2) = (kept ++ [a; b])%list ->
      datasets (chart (snd (Snapshot4.update_chart data s2)))
      = (kept ++ datasets (chart (snd (Snapshot4.update_chart data s))))%list.
Proof.
  assert (Hs : Snapshot4.update_chart data s
               = (Normal tt,
                  State (page s)
                        (Chart (recreated data (datasets (chart s)))
                               (xAxis_min (chart s)) (xAxis_max (chart s)))
                        (trace s ++ [ChartUpdate "none"]))).
  { destruct s as [pg [ds lo hi] tr]. unfold Snapshot4.update_chart,
      Snapshot4.datasets_pop, recreated. run.
    rewrite <- !app_assoc. reflexivity. }
  assert (Hfew' : recreated data (datasets (chart s))
                  = recreated data []).
  { destruct (datasets (chart s)) as [|a [|b [|c ds]]]; try reflexivity.
    cbn in Hfew. lia. }
  split.
  - rewrite Hs, Hfew'. reflexivity.
  - intros s2 kept a b Hds. rewrite Hs, Hfew'. cbn [snd chart datasets].
    destruct s2 as [pg [ds lo hi] tr]. cbn [chart datasets] in Hds. subst ds.
    unfold Snapshot4.update_chart, Snapshot4.datasets_pop, recreated. run.
    replace (kept ++ [a; b])%list with ((kept ++ [a]) ++ [b])%list
      by (rewrite <- app_assoc; reflexivity).
    rewrite !removelast_last. rewrite <- !app_assoc. reflexivity.
Qed.

(** ** More on the CO2 box and the humidity formula *)

(** X16.  Updating the CO2 box touches nothing but the text and the
    background color of the box: whether a band matches or not, the chart
    is unchanged, no request leaves and nothing is redrawn (the two
    console messages are all it adds to the trace, the second one carrying
    the band that was found, if any), every other element of the page is as
    it was, and the box keeps its classes and its visibility. *)
Theorem co2_box_update_touches_only_the_box
    (co2_map : list band) (level : Q) (s : state) :
  exists r s' found,
    BuildChart.update_co2_box co2_map level s = (r, s')
    /\ (found = None <-> forall b, In b co2_map -> ~ contains level b)
    /\ (r = Normal tt <-> found <> None)
    /\ added s s' [ConsoleLog "current_co2 is fetched: " (LNumber level);
                   ConsoleLog "current level: " (LBand found)]
    /\ chart s' = chart s
    /\ Dom.on_co2_box (fun _ => Dom.co2_box (page s)) (page s') = page s
    /\ Dom.classList (Dom.co2_box (page s'))
       = Dom.classList (Dom.co2_box (page s))
    /\ Dom.hidden (Dom.co2_box (page s')) = Dom.hidden (Dom.co2_box (page s)).
Proof.
  set (test := fun elem : band =>
                 Qle_bool (start elem) level && Qlt_bool level (end_ elem)).
  assert (Hnone : List.find test co2_map = None
                  <-> forall b, In b co2_map -> ~ contains level b).
  { split.
    - intros Hf b Hb Hc. apply band_test_contains in Hc.
      pose proof (List.find_none test co2_map Hf b Hb) as H.
      unfold test in H. congruence.
    - intros H. apply find_nothing. intros b Hb.
      destruct (test b) eqn:E; [|reflexivity].
      apply band_test_contains in E. destruct (H b Hb E). }
  destruct s as [[e0 e1 e2 e3 e4 e5 e6 e7 e8 e9 rest] ch tr].
  unfold BuildChart.update_co2_box. fold test.
  destruct (List.find test co2_map) as [b|] eqn:Hfind; run.
  - eexists _, _, (Some b). split; [reflexivity|].
    split; [rewrite <- Hnone; split; discriminate|].
    split; [split; [discriminate|reflexivity]|].
    split; [unfold added; cbn [trace]; rewrite <- app_assoc; reflexivity|].
    repeat split.
  - eexists _, _, None. split; [reflexivity|].
    split; [rewrite <- Hnone; split; reflexivity|].
    split; [split; [discriminate|congruence]|].
    split; [unfold added; cbn [trace]; rewrite <- app_assoc; reflexivity|].
    repeat split.
Qed.

Module HumidityFacts.
#[local] Open Scope R_scope.

(** Over the range of an indoor or outdoor sensor the exponent of the Buck
    formula gains at least 0.035 per degree. *)
Lemma exponent_gain (a b : R) :
  -40 <= a -> a <= b -> b <= 100 ->
  0.035 * (b - a)
  <= (18.678 - b / 234.5) * (b / (257.14 + b))
     - (18.678 - a / 234.5) * (a / (257.14 + a)).
Proof.
  intros Ha Hab Hb.
  assert (Da : 0 < 257.14 + a) by lra.
  assert (Db : 0 < 257.14 + b) by lra.
  replace ((18.678 - b / 234.5) * (b / (257.14 + b))
           - (18.678 - a / 234.5) * (a / (257.14 + a)))
    with ((b - a)
          * ((18.678 * 257.14 - (257.14 / 234.5) * (a + b) - a * b / 234.5)
             / ((257.14 + a) * (257.14 + b))))
    by (field; lra).
  rewrite (Rmult_comm 0.035).
  apply Rmult_le_compat_l; [lra|].
  assert (Hprod : 0 < (257.14 + a) * (257.14 + b))
    by (apply Rmult_lt_0_compat; assumption).
  apply Rmult_le_reg_r with (r := (257.14 + a) * (257.14 + b));
    [exact Hprod|].
  replace ((18.678 * 257.14 - 257.14 / 234.5 * (a + b) - a * b / 234.5)
           / ((257.14 + a) * (257.14 + b))
           * ((257.14 + a) * (257.14 + b)))
    with (18.678 * 257.14 - 257.14 / 234.5 * (a + b) - a * b / 234.5)
    by (field; lra).
  assert (a * b <= 10000) by nra.
  assert ((257.14 + a) * (257.14 + b) <= 357.14 * 357.14) by nra.
  lra.
Qed.

(** From 0 to 100 degrees the saturation pressure is at least the
    constant of the formula. *)
Lemma saturation_pressure_at_least (t : R) :
  0 <= t -> t <= 100 ->
  0.61121 <= Humidity.calculate_saturation_pressure t.
Proof.
  intros H0 H100. unfold Humidity.calculate_saturation_pressure. cbv zeta.
  assert (Hp : 0 <= (18.678 - t / 234.5) * (t / (257.14 + t))).
  { apply Rmult_le_pos; [lra|]. apply Rle_mult_inv_pos; lra. }
  assert (He : 1 <= exp ((18.678 - t / 234.5) * (t / (257.14 + t)))).
  { destruct Hp as [Hp | <-]; [|rewrite exp_0; lra].
    assert (Hne : (18.678 - t / 234.5) * (t / (257.14 + t)) <> 0) by lra.
    pose proof (exp_ineq1 _ Hne). lra. }
  lra.
Qed.

End HumidityFacts.

Import HumidityFacts.

(** X14.  Above 0 degrees Celsius the derived absolute humidity grows with
    the relative humidity and is 0 for dry air; the derived point carries
    the time of its reading. *)
Theorem absolute_humidity_grows_with_humidity
    (time : value) (temperature lower higher : R)
    (Htemp : (0 < temperature)%R) (Hle : (lower <= higher)%R) :
  (Humidity.p_value
     (Humidity.absolute_humidity (Humidity.Reading time temperature lower))
   <= Humidity.p_value
        (Humidity.absolute_humidity
           (Humidity.Reading time temperature higher)))%R
  /\ Humidity.p_value
       (Humidity.absolute_humidity (Humidity.Reading time temperature 0))
     = 0%R
  /\ Humidity.p_time
       (Humidity.absolute_humidity (Humidity.Reading time temperature lower))
     = time.
Proof.
  unfold Humidity.absolute_humidity. cbv zeta.
  cbn [Humidity.p_value Humidity.p_time Humidity.temperature
       Humidity.humidity Humidity.time].
  pose proof (Facts.saturation_pressure_positive temperature) as Hp.
  set (p := Humidity.calculate_saturation_pressure temperature) in *.
  assert (Hinv : (0 < / (461.5 * temperature))%R)
    by (apply Rinv_0_lt_compat; lra).
  set (k := (/ (461.5 * temperature))%R) in *.
  unfold Rdiv. fold k.
  split; [|split; [|reflexivity]].
  - assert (0 <= p * k)%R by (apply Rmult_le_pos; lra). nra.
  - nra.
Qed.

(** X15.  The saturation pressure of the Buck formula is positive and is
    the constant 0.61121 at 0 degrees Celsius.  Between -40 and 100
    degrees it grows with the temperature by at least 3.5 percent per
    degree: for two temperatures at least a thousandth of a degree apart,
    the pressure at the warmer one is larger, and at least the pressure at
    the colder one times 1 + 0.035 times their distance. *)
Theorem saturation_pressure_grows_with_temperature (colder warmer : R)
    (Hlow : (-40 <= colder)%R) (Hapart : (colder + 1 / 1000 <= warmer)%R)
    (Hhigh : (warmer <= 100)%R) :
  (0 < Humidity.calculate_saturation_pressure colder)%R
  /\ (Humidity.calculate_saturation_pressure colder
      * (1 + 0.035 * (warmer - colder))
      <= Humidity.calculate_saturation_pressure warmer)%R
  /\ (Humidity.calculate_saturation_pressure colder
      < Humidity.calculate_saturation_pressure warmer)%R
  /\ Humidity.calculate_saturation_pressure 0 = 0.61121%R.
Proof.
  pose proof (Facts.saturation_pressure_positive colder) as Hpos.
  assert (Hrate : (Humidity.calculate_saturation_pressure colder
                   * (1 + 0.035 * (warmer - colder))
                   <= Humidity.calculate_saturation_pressure warmer)%R).
  { unfold Humidity.calculate_saturation_pressure in *. cbv zeta in *.
    pose proof (exponent_gain colder warmer Hlow ltac:(lra) Hhigh) as Hgain.
    set (fc := ((18.678 - colder / 234.5)
                * (colder / (257.14 + colder)))%R) in *.
    set (fw := ((18.678 - warmer / 234.5)
                * (warmer / (257.14 + warmer)))%R) in *.
    replace fw with (fc + (fw - fc))%R by ring.
    rewrite exp_plus.
    assert (Hne : (fw - fc <> 0)%R) by lra.
    pose proof (exp_ineq1 _ Hne) as Hexp.
    pose proof (exp_pos fc) as Hfc.
    rewrite <- Rmult_assoc.
    apply Rmult_le_compat_l; lra. }
  split; [exact Hpos|]. split; [exact Hrate|]. split.
  - eapply Rlt_le_trans; [|exact Hrate].
    assert (0 < 0.035 * (warmer - colder))%R by lra. nra.
  - unfold Humidity.calculate_saturation_pressure. cbv zeta.
    replace ((18.678 - 0 / 234.5) * (0 / (257.14 + 0)))%R with 0%R
      by (field; lra).
    rewrite exp_0. lra.
Qed.

(** X18.  The formula divides by the temperature in degrees Celsius, so
    the derived value is not bounded near the freezing point: between 0
    and 100 degrees it is at least 0.2386 times the relative humidity
    divided by the temperature (more than 1000 grams per cubic meter at
    0.01 degrees and 50 percent). *)
Theorem absolute_humidity_unbounded_near_zero (data : Humidity.reading)
    (Htemp : (0 < Humidity.temperature data <= 100)%R)
    (Hhum : (0 <= Humidity.humidity data)%R) :
  (0.2386 * Humidity.humidity data / Humidity.temperature data
   <= Humidity.p_value (Humidity.absolute_humidity data))%R.
Proof.
  unfold Humidity.absolute_humidity. cbv zeta. cbn [Humidity.p_value].
  destruct Htemp as [H0 H100].
  pose proof (saturation_pressure_at_least (Humidity.temperature data))
    as Hp.
  set (p := Humidity.calculate_saturation_pressure _) in *.
  assert (Hp' : (0.61121 <= p)%R) by (apply Hp; lra).
  set (t := Humidity.temperature data) in *.
  set (h := Humidity.humidity data) in *.
  assert (Hinv : (0 < / t)%R) by (apply Rinv_0_lt_compat; lra).
  replace (p * (h / 100) / (461.5 * t) * 18.02 * 1000)%R
    with (p * (18.02 * 1000 / (100 * 461.5)) * (h * / t))%R
    by (field; lra).
  unfold Rdiv at 1.
  replace (0.2386 * h * / t)%R with (0.2386 * (h * / t))%R by ring.
  apply Rmult_le_compat_r; [apply Rmult_le_pos; lra|].
  lra.
Qed.

(** ** The further properties on the sample sessions *)

Lemma loaded_result_is_displayed_witness :
  answer Sample.answered = Response 200 "[r1,r2,r3]"
  /\ Sample.JSON_parse "[r1,r2,r3]" = Normal Sample.readings
  /\ exists s',
      BuildChart.fetch_data Sample.JSON_parse Sample.Date_toLocaleString
        Sample.answered "/data/range/1h" Sample.fresh
      = (Normal Sample.readings, s')
      /\ Dom.textContent (Dom.load_time (page s')) = "15"
      /\ Dom.textContent (Dom.points_loaded (page s')) = "3"
      /\ Dom.textContent (Dom.start_date (page s')) = "1000"
      /\ Dom.textContent (Dom.end_date (page s')) = "3000".
Proof.
  split; [reflexivity|]. split; [reflexivity|].
  destruct (loaded_result_is_displayed Sample.JSON_parse
              Sample.Date_toLocaleString Sample.answered "/data/range/1h"
              Sample.fresh "[r1,r2,r3]" Sample.readings _ _
              eq_refl eq_refl eq_refl eq_refl)
    as (s' & Hrun & H1 & H2 & H3 & H4 & _).
  exists s'. repeat split; assumption.
Defined.

Lemma empty_result_hides_dates_witness :
  answer Sample.answered = Response 200 "[r1,r2,r3]"
  /\ MoreSamples.no_readings "[r1,r2,r3]" = Normal []
  /\ exists s',
      BuildChart.fetch_data MoreSamples.no_readings
        Sample.Date_toLocaleString Sample.answered "/data/range/1h"
        Sample.loaded
      = (Normal [], s')
      /\ Dom.textContent (Dom.points_loaded (page s')) = "0"
      /\ Dom.hidden (Dom.start_date (page s')) = true
      /\ Dom.hidden (Dom.end_date (page s')) = true
      /\ Dom.textContent (Dom.start_date (page s')) = "1000"
      /\ Dom.textContent (Dom.end_date (page s')) = "3000".
Proof.
  split; [reflexivity|]. split; [reflexivity|].
  exact (empty_result_hides_dates MoreSamples.no_readings
           Sample.Date_toLocaleString Sample.answered "/data/range/1h"
           Sample.loaded "[r1,r2,r3]" eq_refl eq_refl).
Defined.

(** After a reload without readings, a reload with three readings. *)
Lemma hidden_dates_stay_hidden_witness :
  Dom.hidden (Dom.start_date (page MoreSamples.emptied)) = true
  /\ Dom.has_class "hide-until-loaded"
       (Dom.start_date (page MoreSamples.emptied)) = false
  /\ Dom.hidden (Dom.end_date (page MoreSamples.emptied)) = true
  /\ Dom.has_class "hide-until-loaded"
       (Dom.end_date (page MoreSamples.emptied)) = false
  /\ exists body s',
      BuildChart.fetch_data Sample.JSON_parse Sample.Date_toLocaleString
        Sample.answered "/data/range/1h" MoreSamples.emptied
      = (Normal body, s')
      /\ Dom.hidden (Dom.start_date (page s')) = true
      /\ Dom.hidden (Dom.end_date (page s')) = true.
Proof.
  do 4 (split; [reflexivity|]).
  exact (hidden_dates_stay_hidden Sample.JSON_parse
           Sample.Date_toLocaleString Sample.answered "/data/range/1h"
           MoreSamples.emptied eq_refl eq_refl eq_refl eq_refl).
Defined.

Lemma every_failure_is_reported_witness :
  classify Sample.JSON_parse Sample.offline
  = Failure "TypeError: Failed to fetch"
  /\ Dom.has_class "hide-until-loaded"
       (Dom.error_message (page Sample.loaded)) = false
  /\ Dom.has_class "visible-until-loaded"
       (Dom.error_message (page Sample.loaded)) = false
  /\ exists s',
      BuildChart.fetch_data Sample.JSON_parse Sample.Date_toLocaleString
        Sample.offline "/data/range/1h" Sample.loaded
      = (Normal [], s')
      /\ Dom.textContent (Dom.error_message (page s'))
         = "TypeError: Failed to fetch"
      /\ Dom.hidden (Dom.error_message (page s')) = false
      /\ Dom.textContent (Dom.points_loaded (page s')) = "3".
Proof.
  do 3 (split; [reflexivity|]).
  destruct (every_failure_is_reported Sample.JSON_parse
              Sample.Date_toLocaleString Sample.offline "/data/range/1h"
              Sample.loaded "TypeError: Failed to fetch"
              eq_refl eq_refl eq_refl)
    as (_ & s' & Hrun & H1 & H2 & _ & _ & H3 & _).
  exists s'. repeat split; assumption.
Defined.

(** A zoom and then a pan, both in flight; the pan is answered first, by
    HTTP 500, and then the zoom, with three readings. *)
Lemma chart_shows_the_last_answer_witness :
  datasets (chart Sample.fresh) = []
  /\ map (fun d => (label d, length (data d)))
       (datasets
          (chart (run_schedule Sample.JSON_parse Sample.Date_toLocaleString
                    ([Fired ZoomCompleted; Fired PanCompleted;
                      Settled PanCompleted Sample.unavailable]
                     ++ Settled ZoomCompleted Sample.answered
                        :: map Fired [])
                    Sample.fresh)))
     = [("Temperature (C)", 3%nat); ("Humidity (%H)", 3%nat);
        ("Co2 (ppm)", 1%nat)].
Proof.
  split; [reflexivity|].
  rewrite (proj1 (chart_shows_the_last_answer Sample.JSON_parse
                    Sample.Date_toLocaleString
                    [Fired ZoomCompleted; Fired PanCompleted;
                     Settled PanCompleted Sample.unavailable]
                    ZoomCompleted Sample.answered [] Sample.fresh eq_refl)).
  reflexivity.
Defined.


Lemma plotted_co2_is_truthy_witness :
  (datasets (chart Sample.fresh) = []
   \/ length (datasets (chart Sample.fresh)) = 3%nat)
  /\ exists s' d0 d1 d2,
      handler Sample.JSON_parse Sample.Date_toLocaleString PresetChanged
        Sample.answered Sample.fresh = (Normal tt, s')
      /\ datasets (chart s') = [d0; d1; d2]
      /\ Forall (fun p => truthy (y p) = true) (data d2)
      /\ length (data d0) = 3%nat
      /\ length (data d1) = 3%nat
      /\ (length (data d2) <= 3)%nat.
Proof.
  split; [left; reflexivity|].
  exact (plotted_co2_is_truthy Sample.JSON_parse Sample.Date_toLocaleString
           PresetChanged Sample.answered Sample.fresh
           (or_introl eq_refl)).
Defined.

(** A zoom whose answer (three readings) is overtaken by the failed answer
    to a later pan, and the same two answers in order. *)
Lemma last_settled_answer_wins_witness :
  (datasets (chart Sample.fresh) = []
   \/ length (datasets (chart Sample.fresh)) = 3%nat)
  /\ map (fun d => length (data d))
       (datasets
          (chart
             (snd (resume Sample.JSON_parse Sample.Date_toLocaleString
                     ZoomCompleted Sample.answered
                     (snd (resume Sample.JSON_parse
                             Sample.Date_toLocaleString PanCompleted
                             Sample.unavailable
                             (snd (request PanCompleted
                                     (snd (request ZoomCompleted
                                             Sample.fresh))))))))))
     = [3; 3; 1]%nat
  /\ map (fun d => length (data d))
       (datasets
          (chart
             (snd (resume Sample.JSON_parse Sample.Date_toLocaleString
                     PanCompleted Sample.unavailable
                     (snd (resume Sample.JSON_parse
                             Sample.Date_toLocaleString ZoomCompleted
                             Sample.answered
                             (snd (request PanCompleted
                                     (snd (request ZoomCompleted
                                             Sample.fresh))))))))))
     = [0; 0; 0]%nat.
Proof.
  split; [left; reflexivity|].
  destruct (last_settled_answer_wins Sample.JSON_parse
              Sample.Date_toLocaleString ZoomCompleted PanCompleted
              Sample.answered Sample.unavailable Sample.fresh
              (or_introl eq_refl))
    as (_ & _ & Hin_order & Hovertaken).
  split.
  - rewrite <- (map_map data (fun l : list xy => length l)), Hovertaken.
    reflexivity.
  - rewrite <- (map_map data (fun l : list xy => length l)), Hin_order.
    reflexivity.
Defined.

Lemma rounded_viewport_stays_ordered_witness :
  ((3 # 2) <= (7 # 2))%Q
  /\ (Math_round (3 # 2) <= Math_round (7 # 2))%Z
  /\ Math_round (3 # 2) = 2%Z
  /\ Math_round (7 # 2) = 4%Z.
Proof.
  assert (H : ((3 # 2) <= (7 # 2))%Q) by discriminate.
  split; [exact H|].
  split; [exact (proj1 (rounded_viewport_stays_ordered (3 # 2) (7 # 2) H))|].
  split; reflexivity.
Defined.

Lemma first_snapshot_plots_two_series_witness :
  datasets (chart Sample.fresh) = []
  /\ exists s',
      update_all
        ([Snapshot1.Converted [] [] MoreSamples.one_point]
         ++ [Snapshot1.Converted MoreSamples.one_point []
               MoreSamples.one_point])
        Sample.fresh = (Normal tt, s')
      /\ map (fun d => (label d, length (data d))) (datasets (chart s'))
         = [("Temperature (C)", 1%nat); ("Humidity (%H)", 0%nat)].
Proof.
  split; [reflexivity|].
  destruct (first_snapshot_plots_two_series
              [Snapshot1.Converted [] [] MoreSamples.one_point]
              (Snapshot1.Converted MoreSamples.one_point []
                 MoreSamples.one_point)
              Sample.fresh eq_refl)
    as (s' & Hrun & Hds & _).
  exists s'. split; [exact Hrun|]. rewrite Hds. reflexivity.
Defined.

Lemma first_snapshot_single_dataset_faults_witness :
  datasets (chart MoreSamples.placeholder) = [Dataset "Loading data..." [] ""]
  /\ fst (Snapshot1.update_chart
            (Snapshot1.Converted MoreSamples.one_point MoreSamples.one_point
               [])
            MoreSamples.placeholder)
     = Throw (TypeError_undefined_set "data")
  /\ trace (snd (Snapshot1.update_chart
                   (Snapshot1.Converted MoreSamples.one_point
                      MoreSamples.one_point [])
                   MoreSamples.placeholder))
     = [].
Proof.
  split; [reflexivity|].
  rewrite (proj1 (first_snapshot_single_dataset_faults
                    (Snapshot1.Converted MoreSamples.one_point
                       MoreSamples.one_point [])
                    MoreSamples.placeholder
                    (Dataset "Loading data..." [] "") eq_refl)).
  split; reflexivity.
Defined.

Lemma fourth_snapshot_recreates_its_datasets_witness :
  (length (datasets (chart MoreSamples.placeholder)) <= 2)%nat
  /\ map label
       (datasets
          (chart (snd (Snapshot4.update_chart (Snapshot4.Fetched [] [])
                         MoreSamples.placeholder))))
     = ["Temperature (C)"; "Humidity (%H)"].
Proof.
  assert (H : (length (datasets (chart MoreSamples.placeholder)) <= 2)%nat)
    by (cbn; lia).
  split; [exact H|].
  rewrite (proj1 (fourth_snapshot_recreates_its_datasets
                    (Snapshot4.Fetched [] []) MoreSamples.placeholder H)).
  reflexivity.
Defined.

Lemma absolute_humidity_grows_with_humidity_witness :
  (0 < 20)%R /\ (40 <= 60)%R
  /\ (Humidity.p_value
        (Humidity.absolute_humidity (Humidity.Reading undefined 20 40))
      <= Humidity.p_value
           (Humidity.absolute_humidity (Humidity.Reading undefined 20 60)))%R.
Proof.
  assert (H1 : (0 < 20)%R) by lra. assert (H2 : (40 <= 60)%R) by lra.
  split; [exact H1|]. split; [exact H2|].
  exact (proj1 (absolute_humidity_grows_with_humidity undefined 20 40 60
                  H1 H2)).
Defined.

Lemma saturation_pressure_grows_with_temperature_witness :
  (-40 <= 0)%R /\ (0 + 1 / 1000 <= 20)%R /\ (20 <= 100)%R
  /\ (Humidity.calculate_saturation_pressure 0 * (1 + 0.035 * (20 - 0))
      <= Humidity.calculate_saturation_pressure 20)%R.
Proof.
  assert (H1 : (-40 <= 0)%R) by lra.
  assert (H2 : (0 + 1 / 1000 <= 20)%R) by lra.
  assert (H3 : (20 <= 100)%R) by lra.
  split; [exact H1|]. split; [exact H2|]. split; [exact H3|].
  exact (proj1 (proj2 (saturation_pressure_grows_with_temperature 0 20
                         H1 H2 H3))).
Defined.

(** One hundredth of a degree above zero, at 50 percent. *)
Lemma absolute_humidity_unbounded_near_zero_witness :
  (0 < 1 / 100 <= 100)%R /\ (0 <= 50)%R
  /\ (1000 <= Humidity.p_value
                (Humidity.absolute_humidity
                   (Humidity.Reading undefined (1 / 100) 50)))%R.
Proof.
  assert (H1 : (0 < 1 / 100 <= 100)%R) by lra.
  assert (H2 : (0 <= 50)%R) by lra.
  split; [exact H1|]. split; [exact H2|].
  pose proof (absolute_humidity_unbounded_near_zero
                (Humidity.Reading undefined (1 / 100) 50) H1 H2) as H.
  cbn [Humidity.temperature Humidity.humidity] in H.
  lra.
Defined.
